(** * pandera.decorators: [check_input] and [check_output]

    A shallow embedding of [src/pandera/decorators.py].  The two decorators
    wrap a function so that one of its arguments (resp. its return value) is
    passed through [schema.validate].  The wrapper bodies are embedded as
    computations in a small trace-and-exception monad: the trace records, in
    order, every call of [schema.validate], every call of the wrapped
    function and every [warnings.warn]; the result is either the raised
    exception or the returned value. *)

From Stdlib Require Import Ascii.
From stdpp Require Import base strings list gmap pretty.

Local Open Scope string_scope.
Local Open Scope Z_scope.
Set Warnings "-register-all".

(** ** Python values *)

Module Py.

(** Keys used to subscript an object: [obj[3]], [obj[True]] or
    [obj["name"]].  A [string] stands for the Python [str] with the same
    code points, each below 256. *)
Inductive pykey : Type :=
| KBool (b : bool)
| KInt (z : Z)
| KStr (s : string).

#[global] Instance pykey_eq_dec : EqDecision pykey.
Proof. solve_decision. Defined.

(** The values that flow through the decorators.  A pandas frame or series
    is only ever subscripted here, so it is seen through its labelled
    items. *)
Inductive pyval : Type :=
| VNone
| VBool (b : bool)
| VInt (z : Z)
| VStr (s : string)
| VList (l : list pyval)
| VTuple (l : list pyval)
| VDict (items : list (pykey * pyval))
| VFrame (items : list (pykey * pyval)).

(** Exception classes, with [errors.SchemaError] among the builtin ones. *)
Inductive exn_kind : Type :=
| SchemaError
| IndexError
| KeyError
| ValueError
| TypeError
| OtherException (cls : string).

#[global] Instance exn_kind_eq_dec : EqDecision exn_kind.
Proof. solve_decision. Defined.

(** An exception instance; [message] is what [str(e)] and ['%s' % e]
    give. *)
Record exn : Type := Exn { kind : exn_kind; message : string }.

#[global] Instance exn_eq_dec : EqDecision exn.
Proof. solve_decision. Defined.

Definition result (A : Type) : Type := exn + A.

(** A [bool] used as a number: [True] is [1], [False] is [0]. *)
Definition Z_of_bool (b : bool) : Z := if b then 1 else 0.

(** *** [repr] of a [str] *)

Definition squote : ascii := "'"%char.
Definition dquote : ascii := "034"%char.
Definition backslash : ascii := "\"%char.

Fixpoint contains (c : ascii) (s : string) : bool :=
  match s with
  | EmptyString => false
  | String c' rest => if decide (c' = c) then true else contains c rest
  end.

Definition hex_digit (n : N) : ascii :=
  ascii_of_N (if (n <? 10)%N then 48 + n else 87 + n).

(** The code points below 256 that [str.isprintable] rejects. *)
Definition unprintable (n : N) : bool :=
  ((n <? 32) || ((127 <=? n) && (n <=? 160)) || (n =? 173))%N.

(** What [repr] writes for one character inside the quotes [quote]. *)
Definition repr_char (quote c : ascii) : string :=
  let n := N_of_ascii c in
  if decide (c = quote \/ c = backslash) then String backslash (String c "")
  else if decide (n = 9%N) then String backslash "t"
  else if decide (n = 10%N) then String backslash "n"
  else if decide (n = 13%N) then String backslash "r"
  else if unprintable n then
    String backslash
      (String "x"%char
         (String (hex_digit (n / 16)) (String (hex_digit (n mod 16)) "")))
  else String c "".

Fixpoint repr_chars (quote : ascii) (s : string) : string :=
  match s with
  | EmptyString => ""
  | String c rest => repr_char quote c +:+ repr_chars quote rest
  end.

(** [repr(s)]: single quotes, unless [s] has a single quote and no double
    quote. *)
Definition repr_str (s : string) : string :=
  let quote := if contains squote s && negb (contains dquote s)
               then dquote else squote in
  String quote (repr_chars quote s +:+ String quote "").

(** [repr] of a key, as it appears in a [KeyError]. *)
Definition repr_key (k : pykey) : string :=
  match k with
  | KBool true => "True"
  | KBool false => "False"
  | KInt z => pretty z
  | KStr s => repr_str s
  end.

(** [l[i]] on a list or tuple: a negative index counts from the end. *)
Definition norm_index {A} (l : list A) (i : Z) : option nat :=
  let n := Z.of_nat (length l) in
  let j := if decide (i < 0) then i + n else i in
  if decide (0 <= j < n) then Some (Z.to_nat j) else None.

(** The text of the [IndexError] for an index that selects nothing: an
    index that does not fit the 64-bit [Py_ssize_t] is refused before the
    bounds are looked at. *)
Definition index_error_text (what : string) (i : Z) : string :=
  if decide (- 2 ^ 63 <= i < 2 ^ 63) then what +:+ " index out of range"
  else "cannot fit 'int' into an index-sized integer".

Definition seq_getitem (what : string) (l : list pyval) (i : Z) : result pyval :=
  match norm_index l i with
  | Some j =>
      match l !! j with
      | Some x => inr x
      | None => inl (Exn IndexError (index_error_text what i))
      end
  | None => inl (Exn IndexError (index_error_text what i))
  end.

Definition list_getitem : list pyval -> Z -> result pyval := seq_getitem "list".

(** [l[i] = v]; only used after [l[i]] was read, so [i] is in range. *)
Definition list_setitem (l : list pyval) (i : Z) (v : pyval) : list pyval :=
  match norm_index l i with
  | Some j => <[j := v]> l
  | None => l
  end.

(** Keys are compared as [dict] compares them: [True == 1] and
    [False == 0], with equal hashes. *)
Definition norm_key (k : pykey) : pykey :=
  match k with
  | KBool b => KInt (Z_of_bool b)
  | _ => k
  end.

Fixpoint items_lookup (items : list (pykey * pyval)) (k : pykey) : option pyval :=
  match items with
  | [] => None
  | (k', v) :: rest =>
      if decide (norm_key k' = norm_key k) then Some v
      else items_lookup rest k
  end.

Definition map_getitem (items : list (pykey * pyval)) (k : pykey) : result pyval :=
  match items_lookup items k with
  | Some v => inr v
  | None => inl (Exn KeyError (repr_key k))
  end.

Definition str_getitem (s : string) (i : Z) : result pyval :=
  let n := Z.of_nat (String.length s) in
  let j := if decide (i < 0) then i + n else i in
  match (if decide (0 <= j < n) then String.get (Z.to_nat j) s else None) with
  | Some c => inr (VStr (String c EmptyString))
  | None => inl (Exn IndexError (index_error_text "string" i))
  end.

(** [obj[k]]. *)
Definition getitem (obj : pyval) (k : pykey) : result pyval :=
  match obj, k with
  | VList l, KBool b => seq_getitem "list" l (Z_of_bool b)
  | VTuple l, KBool b => seq_getitem "tuple" l (Z_of_bool b)
  | VStr s, KBool b => str_getitem s (Z_of_bool b)
  | VList l, KInt i => seq_getitem "list" l i
  | VTuple l, KInt i => seq_getitem "tuple" l i
  | VList _, KStr _ =>
      inl (Exn TypeError "list indices must be integers or slices, not str")
  | VTuple _, KStr _ =>
      inl (Exn TypeError "tuple indices must be integers or slices, not str")
  | VStr s, KInt i => str_getitem s i
  | VStr _, KStr _ => inl (Exn TypeError "string indices must be integers")
  | VDict items, _ => map_getitem items k
  | VFrame items, _ => map_getitem items k
  | VNone, _ => inl (Exn TypeError "'NoneType' object is not subscriptable")
  | VBool _, _ => inl (Exn TypeError "'bool' object is not subscriptable")
  | VInt _, _ => inl (Exn TypeError "'int' object is not subscriptable")
  end.

(** ** [collections.OrderedDict] with string keys *)

Definition odict : Type := list (string * pyval).

Fixpoint odict_lookup (d : odict) (k : string) : option pyval :=
  match d with
  | [] => None
  | (k', v) :: rest => if decide (k' = k) then Some v else odict_lookup rest k
  end.

(** [d[k] = v]: an existing key keeps its position, a new one goes last. *)
Fixpoint odict_setitem (d : odict) (k : string) (v : pyval) : odict :=
  match d with
  | [] => [(k, v)]
  | (k', v') :: rest =>
      if decide (k' = k) then (k', v) :: rest
      else (k', v') :: odict_setitem rest k v
  end.

(** [OrderedDict(pairs)]: the pairs are inserted from left to right. *)
Definition odict_step (d : odict) (p : string * pyval) : odict :=
  odict_setitem d p.1 p.2.

Definition odict_of_pairs (ps : list (string * pyval)) : odict :=
  fold_left odict_step ps [].

Definition odict_getitem (d : odict) (k : string) : result pyval :=
  match odict_lookup d k with
  | Some v => inr v
  | None => inl (Exn KeyError (repr_key (KStr k)))
  end.

Definition odict_values (d : odict) : list pyval := d.*2.

End Py.

Import Py.

(** ** The trace-and-exception monad *)

Module Eff.

(** What the wrappers do to the outside world. *)
Inductive event : Type :=
| EValidate (obj head tail sample random_state : pyval)
| ECall (args : list pyval) (kwargs : gmap string pyval)
| EWarn (msg : string).

Definition M (A : Type) : Type := (list event * result A)%type.

Definition ret {A} (a : A) : M A := ([], inr a).

Definition raise {A} (e : exn) : M A := ([], inl e).

Definition lift {A} (r : result A) : M A := ([], r).

Definition emit (ev : event) : M unit := ([ev], inr tt).

Definition bind {A B} (m : M A) (k : A -> M B) : M B :=
  match m with
  | (t, inl e) => (t, inl e)
  | (t, inr a) => let '(t', r) := k a in ((t ++ t')%list, r)
  end.

(** [try: m except <the classes on which h answers> as e: h e]. *)
Definition try_except {A} (m : M A) (h : exn -> option (M A)) : M A :=
  match m with
  | (t, inl e) =>
      match h e with
      | Some m' => let '(t', r) := m' in ((t ++ t')%list, r)
      | None => (t, inl e)
      end
  | (t, inr a) => (t, inr a)
  end.

Definition trace {A} (m : M A) : list event := m.1.
Definition outcome {A} (m : M A) : result A := m.2.

End Eff.

Import Eff.

Notation "x <~ m ;; k" := (bind m (fun x => k))
  (at level 100, m at next level, right associativity).
Notation "m >>~ k" := (bind m (fun _ => k))
  (at level 100, right associativity).

(** ** The objects the decorators are given *)

(** The schema, of which the decorators use [schema.validate(obj, head,
    tail, sample, random_state)], every parameter after the first defaulting
    to [None], and the attribute [schema.transformer]. *)
Record schema : Type := Schema {
  validate : pyval -> pyval -> pyval -> pyval -> pyval -> result pyval;
  transformer : option (pyval -> pyval)
}.

(** The wrapped function: [fn.__name__], [inspect.getfullargspec(fn).args],
    [inspect.ismethod(fn)] and the call [fn( *args, **kwargs)]. *)
Record pyfn : Type := PyFn {
  fn_name : string;
  fn_argspec_args : list string;
  fn_ismethod : bool;
  fn_call : list pyval -> gmap string pyval -> result pyval
}.

(** [obj_getter], by the runtime type the wrappers dispatch on.  A [bool] is
    an [int] for [isinstance]; [tyname] is the class name that
    [type(obj_getter)] prints. *)
Inductive getter : Type :=
| GNone
| GBool (b : bool)
| GInt (i : Z)
| GStr (s : string)
| GCallable (tyname : string) (f : pyval -> result pyval)
| GOther (tyname : string).

(** ['%s' % obj_getter] for an [int] or [bool]. *)
Definition str_of_int_getter (g : getter) : string :=
  match g with
  | GBool true => "True"
  | GBool false => "False"
  | GInt i => pretty i
  | _ => ""
  end.

(** ['%s' % type(obj_getter)]. *)
Definition str_of_type (g : getter) : string :=
  let cls := match g with
             | GNone => "NoneType"
             | GBool _ => "bool"
             | GInt _ => "int"
             | GStr _ => "str"
             | GCallable tyname _ => tyname
             | GOther tyname => tyname
             end in
  "<class '" +:+ cls +:+ "'>".

(** ** decorators.py *)

Definition call_validate (s : schema) (obj head tail sample random_state : pyval)
  : M pyval :=
  emit (EValidate obj head tail sample random_state) >>~
  lift (validate s obj head tail sample random_state).

Definition call_fn (fn : pyfn) (args : list pyval) (kwargs : gmap string pyval)
  : M pyval :=
  emit (ECall args kwargs) >>~ lift (fn_call fn args kwargs).

(** [warnings.warn(msg)] under the default filters: the warning is issued and
    the call goes on. *)
Definition warn (msg : string) : M unit := emit (EWarn msg).

(** [arg_spec_args[0]], which raises on an empty list. *)
Definition first_argname (names : list string) : result string :=
  match names with
  | n :: _ => inr n
  | [] => inl (Exn IndexError "list index out of range")
  end.

Definition _get_fn_argnames (fn : pyfn) : result (list string) :=
  let arg_spec_args := fn_argspec_args fn in
  if fn_ismethod fn then
    match first_argname arg_spec_args with
    | inl e => inl e
    | inr n =>
        if decide (n = "self") then inr (drop 1 arg_spec_args)
        else inr arg_spec_args
    end
  else inr arg_spec_args.

Definition index_error_message (fn : pyfn) (g : getter) (n : nat) (e : exn)
  : string :=
  "error in check_input decorator of function '" +:+ fn_name fn +:+
  "': the index '" +:+ str_of_int_getter g +:+
  "' was supplied to the check but this function accepts '" +:+ pretty n +:+
  "' arguments, so the maximum index is '" +:+
  pretty (Z.max 0 (Z.of_nat n - 1)) +:+
  "'. The full error is: '" +:+ message e +:+ "'".

Definition check_input_message (fn : pyfn) (e : exn) : string :=
  "error in check_input decorator of function '" +:+ fn_name fn +:+ "': " +:+
  message e.

Definition check_output_message (fn : pyfn) (e : exn) : string :=
  "error in check_output decorator of function '" +:+ fn_name fn +:+ "': " +:+
  message e.

Definition unrecognized_type_message (g : getter) : string :=
  "obj_getter is unrecognized type: " +:+ str_of_type g.

Definition transformer_warning (fn : pyfn) : string :=
  "The schema transformer function has no effect in a " +:+
  "check_output decorator. Please perform the necessary " +:+
  "transformations in the '" +:+ fn_name fn +:+ "' function instead.".

(** The branch [isinstance(obj_getter, int)] of [check_input._wrapper]. *)
Definition check_input_int (s : schema) (g : getter) (i : Z) (fn : pyfn)
    (args : list pyval) : M (list pyval) :=
  try_except
    (x <~ lift (list_getitem args i) ;;
     v <~ call_validate s x VNone VNone VNone VNone ;;
     ret (list_setitem args i v))
    (fun e =>
       if decide (kind e = IndexError) then
         Some (names <~ lift (_get_fn_argnames fn) ;;
               raise (Exn SchemaError
                        (index_error_message fn g (length names) e)))
       else None).

(** The branch [isinstance(obj_getter, str)]. *)
Definition check_input_str (s : schema) (name : string) (fn : pyfn)
    (args : list pyval) (kwargs : gmap string pyval)
  : M (list pyval * gmap string pyval) :=
  match kwargs !! name with
  | Some x =>
      v <~ call_validate s x VNone VNone VNone VNone ;;
      ret (args, <[name := v]> kwargs)
  | None =>
      arg_spec_args <~ lift (_get_fn_argnames fn) ;;
      let args_dict := odict_of_pairs (zip arg_spec_args args) in
      x <~ lift (odict_getitem args_dict name) ;;
      v <~ call_validate s x VNone VNone VNone VNone ;;
      ret (odict_values (odict_setitem args_dict name v), kwargs)
  end.

(** The branch [obj_getter is None]. *)
Definition check_input_none (s : schema) (head tail sample random_state : pyval)
    (fn : pyfn) (args : list pyval) : M (list pyval) :=
  try_except
    (x <~ lift (list_getitem args 0) ;;
     v <~ call_validate s x head tail sample random_state ;;
     ret (list_setitem args 0 v))
    (fun e =>
       if decide (kind e = SchemaError) then
         Some (raise (Exn SchemaError (check_input_message fn e)))
       else None).

(** [check_input(schema, obj_getter, head, tail, sample, random_state)]
    applied to [fn], called with [args] and [kwargs]. *)
Definition check_input (s : schema) (obj_getter : getter)
    (head tail sample random_state : pyval)
    (fn : pyfn) (args : list pyval) (kwargs : gmap string pyval) : M pyval :=
  ak <~ match obj_getter with
        | GInt i =>
            args' <~ check_input_int s obj_getter i fn args ;;
            ret (args', kwargs)
        | GBool b =>
            args' <~ check_input_int s obj_getter (Z_of_bool b) fn args ;;
            ret (args', kwargs)
        | GStr name => check_input_str s name fn args kwargs
        | GNone =>
            args' <~ check_input_none s head tail sample random_state fn args ;;
            ret (args', kwargs)
        | GCallable _ _ | GOther _ =>
            raise (Exn ValueError (unrecognized_type_message obj_getter))
        end ;;
  call_fn fn ak.1 ak.2.

(** [out[obj_getter]] for an [int] or [str] selector. *)
Definition select_output (obj_getter : getter) (out : pyval) : M pyval :=
  match obj_getter with
  | GNone => ret out
  | GBool b => lift (getitem out (KBool b))
  | GInt i => lift (getitem out (KInt i))
  | GStr name => lift (getitem out (KStr name))
  | GCallable _ f => lift (f out)
  | GOther _ => raise (Exn ValueError (unrecognized_type_message obj_getter))
  end.

(** [check_output(schema, obj_getter, head, tail, sample, random_state)]
    applied to [fn], called with [args] and [kwargs]. *)
Definition check_output (s : schema) (obj_getter : getter)
    (head tail sample random_state : pyval)
    (fn : pyfn) (args : list pyval) (kwargs : gmap string pyval) : M pyval :=
  (match transformer s with
   | Some _ => warn (transformer_warning fn)
   | None => ret tt
   end) >>~
  out <~ call_fn fn args kwargs ;;
  obj <~ select_output obj_getter out ;;
  try_except
    (call_validate s obj head tail sample random_state)
    (fun e =>
       if decide (kind e = SchemaError) then
         Some (raise (Exn SchemaError (check_output_message fn e)))
       else None) >>~
  ret out.

(** ** Reading a trace *)

(** The warning [check_output] starts with, if any. *)
Definition transformer_warnings (s : schema) (fn : pyfn) : list event :=
  match transformer s with
  | Some _ => [EWarn (transformer_warning fn)]
  | None => []
  end.

(** How many times a run calls the wrapped function. *)
Fixpoint count_calls (tr : list event) : nat :=
  match tr with
  | [] => 0%nat
  | ECall _ _ :: rest => S (count_calls rest)
  | _ :: rest => count_calls rest
  end.

(** ** A schema and two functions to run the wrappers on *)

Module Demo.

Definition marker : pykey * pyval := (KStr "validated", VBool true).

(** The transformer of the schema below: it adds a column to a frame. *)
Definition add_marker (obj : pyval) : pyval :=
  match obj with
  | VFrame items => VFrame (items ++ [marker])%list
  | _ => obj
  end.

(** A schema that accepts non-empty frames only and returns the frame, passed
    through the transformer when there is one. *)
Definition frame_validate (transformer : option (pyval -> pyval))
    (obj head tail sample random_state : pyval) : result pyval :=
  match obj with
  | VFrame [] => inl (Exn SchemaError "empty frame")
  | VFrame _ => inr (match transformer with Some f => f obj | None => obj end)
  | _ => inl (Exn SchemaError "not a frame")
  end.

Definition frame_schema : schema :=
  Schema (frame_validate (Some add_marker)) (Some add_marker).

Definition plain_schema : schema := Schema (frame_validate None) None.

(** [def f(x, df): return (x, df)]. *)
Definition f : pyfn :=
  PyFn "f" ["x"; "df"] false (fun args _ => inr (VTuple args)).

(** A bound method [def m(self, df): return df]. *)
Definition m : pyfn :=
  PyFn "m" ["self"; "df"] true
       (fun args _ => match args with
                      | [x] => inr x
                      | _ => inl (Exn TypeError "m() takes 2 positional arguments")
                      end).

(** A schema whose [validate] itself raises an [IndexError]. *)
Definition indexing_schema : schema :=
  Schema (fun _ _ _ _ _ =>
            inl (Exn IndexError "positional indexers are out-of-bounds"))
         None.

(** [def failing(df): raise errors.SchemaError("raised inside")]. *)
Definition failing : pyfn :=
  PyFn "failing" ["df"] false
       (fun _ _ => inl (Exn SchemaError "raised inside")).

(** A bound method [def collect( *frames): return list(frames)], which
    declares no named parameter. *)
Definition collect : pyfn :=
  PyFn "collect" [] true (fun args _ => inr (VList args)).

(** [def report(df): return {"frame": df}]. *)
Definition report : pyfn :=
  PyFn "report" ["df"] false
       (fun args _ => match args with
                      | [x] => inr (VDict [(KStr "frame", x)])
                      | _ => inl (Exn TypeError "report() takes 1 positional argument")
                      end).

Definition df : pyval := VFrame [(KStr "a", VList [VInt 1; VInt 2])].
Definition df' : pyval := VFrame [(KStr "a", VList [VInt 1; VInt 2]); marker].
Definition empty_df : pyval := VFrame [].

End Demo.

(** ** Sequence and dictionary lemmas *)

Lemma norm_index_lt {A} (l : list A) (i : Z) (j : nat) :
  norm_index l i = Some j -> (j < length l)%nat.
Proof.
  unfold norm_index. intros H.
  destruct (decide (i < 0)); case_decide; simplify_eq; lia.
Qed.

Lemma list_getitem_Some (l : list pyval) (i : Z) (j : nat) (x : pyval) :
  norm_index l i = Some j -> l !! j = Some x -> list_getitem l i = inr x.
Proof.
  intros Hi Hx. unfold list_getitem, seq_getitem. by rewrite Hi, Hx.
Qed.

Lemma seq_getitem_None (what : string) (l : list pyval) (i : Z) :
  norm_index l i = None ->
  seq_getitem what l i = inl (Exn IndexError (index_error_text what i)).
Proof. intros Hi. unfold seq_getitem. by rewrite Hi. Qed.

Lemma list_getitem_inv (l : list pyval) (i : Z) (x : pyval) :
  list_getitem l i = inr x ->
  exists j, norm_index l i = Some j /\ l !! j = Some x.
Proof.
  unfold list_getitem, seq_getitem. intros H.
  destruct (norm_index l i) as [j|]; [|done].
  destruct (l !! j) eqn:E; [|done]. exists j. by simplify_eq.
Qed.

Lemma list_getitem_err (l : list pyval) (i : Z) (e : exn) :
  list_getitem l i = inl e -> e = Exn IndexError (index_error_text "list" i).
Proof.
  unfold list_getitem, seq_getitem. intros H.
  destruct (norm_index l i) as [j|]; [destruct (l !! j)|]; by simplify_eq.
Qed.

Lemma list_setitem_Some (l : list pyval) (i : Z) (j : nat) (v : pyval) :
  norm_index l i = Some j -> list_setitem l i v = <[j := v]> l.
Proof. intros Hi. unfold list_setitem. by rewrite Hi. Qed.

Lemma odict_lookup_setitem_eq (d : odict) (k : string) (v : pyval) :
  odict_lookup (odict_setitem d k v) k = Some v.
Proof.
  induction d as [|[k' v'] d IH]; simpl.
  - by rewrite decide_True.
  - destruct (decide (k' = k)) as [->|Hne]; simpl.
    + by rewrite decide_True.
    + by rewrite decide_False.
Qed.

Lemma odict_lookup_setitem_ne (d : odict) (k k' : string) (v : pyval) :
  k <> k' -> odict_lookup (odict_setitem d k v) k' = odict_lookup d k'.
Proof.
  intros Hne. induction d as [|[k0 v0] d IH]; simpl.
  - by rewrite decide_False.
  - destruct (decide (k0 = k)) as [->|Hk]; simpl.
    + by rewrite !decide_False.
    + by rewrite IH.
Qed.

Lemma odict_fold_lookup_notin (ps : list (string * pyval)) (d : odict) (k : string) :
  k ∉ ps.*1 ->
  odict_lookup (fold_left odict_step ps d) k = odict_lookup d k.
Proof.
  revert d. induction ps as [|[k1 v1] ps IH]; intros d Hk; [done|].
  simpl in *. apply not_elem_of_cons in Hk as [Hne Hk].
  rewrite IH by done. unfold odict_step; simpl.
  by apply odict_lookup_setitem_ne.
Qed.

Lemma odict_fold_lookup_in (ps : list (string * pyval)) (d : odict)
    (k : string) (x : pyval) :
  NoDup ps.*1 -> (k, x) ∈ ps ->
  odict_lookup (fold_left odict_step ps d) k = Some x.
Proof.
  revert d. induction ps as [|[k1 v1] ps IH]; intros d Hnd Hin.
  - by apply elem_of_nil in Hin.
  - simpl in *. apply NoDup_cons in Hnd as [Hk1 Hnd].
    apply elem_of_cons in Hin as [Heq|Hin].
    + simplify_eq. rewrite odict_fold_lookup_notin by done.
      apply odict_lookup_setitem_eq.
    + by apply IH.
Qed.

Lemma odict_of_pairs_unbound (ps : list (string * pyval)) (k : string) :
  k ∉ ps.*1 -> odict_lookup (odict_of_pairs ps) k = None.
Proof. intros Hk. unfold odict_of_pairs. by rewrite (odict_fold_lookup_notin ps [] k Hk). Qed.

Lemma odict_of_pairs_bound (ps : list (string * pyval)) (k : string) (x : pyval) :
  NoDup ps.*1 -> (k, x) ∈ ps -> odict_lookup (odict_of_pairs ps) k = Some x.
Proof. intros Hnd Hin. unfold odict_of_pairs. by apply (odict_fold_lookup_in ps [] k x). Qed.

(** ** Running the wrappers *)

Arguments list_getitem : simpl never.
Arguments list_setitem : simpl never.
Arguments getitem : simpl never.
Arguments odict_getitem : simpl never.
Arguments odict_of_pairs : simpl never.
Arguments _get_fn_argnames : simpl never.
Arguments index_error_message : simpl never.
Arguments check_input_message : simpl never.
Arguments check_output_message : simpl never.
Arguments unrecognized_type_message : simpl never.
Arguments transformer_warning : simpl never.

Ltac unfold_wrappers :=
  unfold check_input, check_input_int, check_input_str, check_input_none,
    check_output, select_output, call_validate, call_fn, warn in *.

Ltac eff_simpl :=
  unfold try_except, bind, lift, emit, ret, raise, trace, outcome in *;
  simpl in *.

(** Case analysis on the first outcome that the goal still branches on. *)
Ltac case_outcome :=
  match goal with
  | |- context [decide ?P] => destruct (decide P)
  | |- context [match ?r with inl _ => _ | inr _ => _ end] =>
      destruct r eqn:?
  | |- context [match ?o with Some _ => _ | None => _ end] =>
      destruct o eqn:?
  end; simpl in *.

(** Membership of an event in an explicit trace. *)
Ltac trace_inv H :=
  repeat (apply elem_of_cons in H as [H|H]; [simplify_eq|]);
  try (apply elem_of_nil in H; destruct H).

(** ** The paths of [check_input], one lemma each *)

Section CheckInputPaths.

Context (s : schema) (head tail sample random_state : pyval).
Context (fn : pyfn) (args : list pyval) (kwargs : gmap string pyval).

Local Abbreviation run g :=
  (check_input s g head tail sample random_state fn args kwargs).

Lemma check_input_int_ok (i : Z) (j : nat) (x v : pyval) :
  norm_index args i = Some j -> args !! j = Some x ->
  validate s x VNone VNone VNone VNone = inr v ->
  run (GInt i) =
    ([EValidate x VNone VNone VNone VNone; ECall (<[j := v]> args) kwargs],
     fn_call fn (<[j := v]> args) kwargs).
Proof.
  intros Hi Hx Hv. unfold_wrappers.
  rewrite (list_getitem_Some _ _ _ _ Hi Hx).
  eff_simpl. rewrite Hv. simpl. by rewrite (list_setitem_Some _ _ _ _ Hi).
Qed.

(** Any exception of [schema.validate] other than an [IndexError] leaves
    the integer path as it is. *)
Lemma check_input_int_validate_raises (i : Z) (j : nat) (x : pyval) (e : exn) :
  norm_index args i = Some j -> args !! j = Some x ->
  validate s x VNone VNone VNone VNone = inl e ->
  kind e <> IndexError ->
  run (GInt i) = ([EValidate x VNone VNone VNone VNone], inl e).
Proof.
  intros Hi Hx Hv Hk. unfold_wrappers.
  rewrite (list_getitem_Some _ _ _ _ Hi Hx).
  eff_simpl. rewrite Hv. by rewrite decide_False.
Qed.

Lemma check_input_int_out_of_range (i : Z) (names : list string) :
  norm_index args i = None -> _get_fn_argnames fn = inr names ->
  run (GInt i) =
    ([], inl (Exn SchemaError
                (index_error_message fn (GInt i) (length names)
                   (Exn IndexError (index_error_text "list" i))))).
Proof.
  intros Hi Hn. unfold_wrappers. unfold list_getitem.
  rewrite (seq_getitem_None _ _ _ Hi). eff_simpl. by rewrite Hn.
Qed.

Lemma check_input_kwarg_ok (name : string) (x v : pyval) :
  kwargs !! name = Some x ->
  validate s x VNone VNone VNone VNone = inr v ->
  run (GStr name) =
    ([EValidate x VNone VNone VNone VNone; ECall args (<[name := v]> kwargs)],
     fn_call fn args (<[name := v]> kwargs)).
Proof.
  intros Hk Hv. unfold_wrappers. rewrite Hk.
  eff_simpl. by rewrite Hv.
Qed.

Lemma check_input_kwarg_validate_raises (name : string) (x : pyval) (e : exn) :
  kwargs !! name = Some x ->
  validate s x VNone VNone VNone VNone = inl e ->
  run (GStr name) = ([EValidate x VNone VNone VNone VNone], inl e).
Proof.
  intros Hk Hv. unfold_wrappers. rewrite Hk.
  eff_simpl. by rewrite Hv.
Qed.

Lemma check_input_named_positional_ok (name : string) (names : list string)
    (x v : pyval) :
  kwargs !! name = None -> _get_fn_argnames fn = inr names ->
  odict_lookup (odict_of_pairs (zip names args)) name = Some x ->
  validate s x VNone VNone VNone VNone = inr v ->
  let args' :=
    odict_values (odict_setitem (odict_of_pairs (zip names args)) name v) in
  run (GStr name) =
    ([EValidate x VNone VNone VNone VNone; ECall args' kwargs],
     fn_call fn args' kwargs).
Proof.
  intros Hk Hn Hx Hv. unfold_wrappers. rewrite Hk, Hn.
  eff_simpl. unfold odict_getitem. rewrite Hx. simpl. by rewrite Hv.
Qed.

Lemma check_input_named_positional_validate_raises (name : string)
    (names : list string) (x : pyval) (e : exn) :
  kwargs !! name = None -> _get_fn_argnames fn = inr names ->
  odict_lookup (odict_of_pairs (zip names args)) name = Some x ->
  validate s x VNone VNone VNone VNone = inl e ->
  run (GStr name) = ([EValidate x VNone VNone VNone VNone], inl e).
Proof.
  intros Hk Hn Hx Hv. unfold_wrappers. rewrite Hk, Hn.
  eff_simpl. unfold odict_getitem. rewrite Hx. simpl. by rewrite Hv.
Qed.

Lemma check_input_named_unbound (name : string) (names : list string) :
  kwargs !! name = None -> _get_fn_argnames fn = inr names ->
  odict_lookup (odict_of_pairs (zip names args)) name = None ->
  run (GStr name) = ([], inl (Exn KeyError (repr_str name))).
Proof.
  intros Hk Hn Hx. unfold_wrappers. rewrite Hk, Hn.
  eff_simpl. unfold odict_getitem. by rewrite Hx.
Qed.

Lemma check_input_none_ok (x v : pyval) (rest : list pyval) :
  args = x :: rest ->
  validate s x head tail sample random_state = inr v ->
  run GNone =
    ([EValidate x head tail sample random_state; ECall (v :: rest) kwargs],
     fn_call fn (v :: rest) kwargs).
Proof.
  intros -> Hv. unfold_wrappers.
  rewrite (list_getitem_Some (x :: rest) 0 0 x) by done.
  eff_simpl. rewrite Hv. simpl.
  by rewrite (list_setitem_Some (x :: rest) 0 0) by done.
Qed.

Lemma check_input_none_schema_error (x : pyval) (rest : list pyval) (e : exn) :
  args = x :: rest ->
  validate s x head tail sample random_state = inl e ->
  kind e = SchemaError ->
  run GNone =
    ([EValidate x head tail sample random_state],
     inl (Exn SchemaError (check_input_message fn e))).
Proof.
  intros -> Hv Hk. unfold_wrappers.
  rewrite (list_getitem_Some (x :: rest) 0 0 x) by done.
  eff_simpl. rewrite Hv. by rewrite decide_True.
Qed.

Lemma check_input_unsupported (g : getter) :
  (forall i, g <> GInt i) -> (forall b, g <> GBool b) ->
  (forall n, g <> GStr n) -> g <> GNone ->
  run g = ([], inl (Exn ValueError (unrecognized_type_message g))).
Proof.
  intros Hi Hb Hs Hn. unfold_wrappers.
  destruct g as [|b|i|n| |]; try done.
  - by destruct (Hb b).
  - by destruct (Hi i).
  - by destruct (Hs n).
Qed.

End CheckInputPaths.

(** Every run of [check_input] has one of three shapes: it fails before
    validating anything, or validation raises and the run ends there, or
    validation returns and the wrapped function is called, once, last. *)
Lemma check_input_shape (s : schema) (g : getter) (h t sa r : pyval)
    (fn : pyfn) (args : list pyval) (kwargs : gmap string pyval) :
  let m := check_input s g h t sa r fn args kwargs in
  (trace m = [] /\ exists e, outcome m = inl e) \/
  (exists x a b c d e e',
      trace m = [EValidate x a b c d] /\
      validate s x a b c d = inl e /\ outcome m = inl e') \/
  (exists x a b c d v args' kwargs',
      trace m = [EValidate x a b c d; ECall args' kwargs'] /\
      validate s x a b c d = inr v /\
      outcome m = fn_call fn args' kwargs').
Proof.
  unfold_wrappers. destruct g; eff_simpl; repeat case_outcome;
    first [ left; split; [reflexivity | eexists; reflexivity]
          | right; left; do 7 eexists; split; [reflexivity | split; [eassumption | reflexivity]]
          | right; right; do 8 eexists; split; [reflexivity | split; [eassumption | reflexivity]] ].
Qed.

(** ** The paths of [check_output] *)

Lemma select_output_trace (g : getter) (out : pyval) :
  trace (select_output g out) = [].
Proof. by destruct g. Qed.

Section CheckOutputPaths.

Context (s : schema) (g : getter) (head tail sample random_state : pyval).
Context (fn : pyfn) (args : list pyval) (kwargs : gmap string pyval).

Local Abbreviation run :=
  (check_output s g head tail sample random_state fn args kwargs).
Local Abbreviation called :=
  (transformer_warnings s fn ++ [ECall args kwargs])%list.

Lemma check_output_fn_raises (e : exn) :
  fn_call fn args kwargs = inl e -> run = (called, inl e).
Proof.
  intros Hf. unfold check_output, transformer_warnings, call_fn, warn.
  destruct (transformer s); eff_simpl; rewrite Hf; reflexivity.
Qed.

Lemma check_output_select_raises (out : pyval) (e : exn) :
  fn_call fn args kwargs = inr out ->
  outcome (select_output g out) = inl e ->
  run = (called, inl e).
Proof.
  intros Hf Hs.
  pose proof (select_output_trace g out) as Ht.
  unfold check_output, transformer_warnings, call_fn, warn.
  destruct (transformer s); eff_simpl; rewrite Hf; simpl;
    destruct (select_output g out) as [tr res]; simpl in *; subst;
    reflexivity.
Qed.

Lemma check_output_ok (out obj v : pyval) :
  fn_call fn args kwargs = inr out ->
  outcome (select_output g out) = inr obj ->
  validate s obj head tail sample random_state = inr v ->
  run = ((called ++ [EValidate obj head tail sample random_state])%list,
         inr out).
Proof.
  intros Hf Hs Hv.
  pose proof (select_output_trace g out) as Ht.
  unfold check_output, transformer_warnings, call_fn, call_validate, warn.
  destruct (transformer s); eff_simpl; rewrite Hf; simpl;
    destruct (select_output g out) as [tr res]; simpl in *; subst;
    rewrite Hv; reflexivity.
Qed.

Lemma check_output_validate_raises (out obj : pyval) (e : exn) :
  fn_call fn args kwargs = inr out ->
  outcome (select_output g out) = inr obj ->
  validate s obj head tail sample random_state = inl e ->
  run = ((called ++ [EValidate obj head tail sample random_state])%list,
         inl (if decide (kind e = SchemaError)
              then Exn SchemaError (check_output_message fn e) else e)).
Proof.
  intros Hf Hs Hv.
  pose proof (select_output_trace g out) as Ht.
  unfold check_output, transformer_warnings, call_fn, call_validate, warn.
  destruct (transformer s); eff_simpl; rewrite Hf; simpl;
    destruct (select_output g out) as [tr res]; simpl in *; subst;
    rewrite Hv; case_decide; reflexivity.
Qed.

End CheckOutputPaths.

(** ** What is validated, and with which sampling parameters *)

Lemma NoDup_fst_zip {A B} (l : list A) (k : list B) :
  NoDup l -> NoDup (zip l k).*1.
Proof.
  revert k. induction l as [|a l IH]; intros k Hnd; [constructor|].
  destruct k as [|b k]; [constructor|]. simpl.
  apply NoDup_cons in Hnd as [Ha Hnd]. apply NoDup_cons. split; [|by apply IH].
  intros Hin. apply Ha. apply list_elem_of_fmap in Hin as [[a' b'] [-> Hin]].
  by apply elem_of_zip_l in Hin.
Qed.

Lemma elem_of_zip_lookup {A B} (l : list A) (k : list B) (j : nat) a b :
  l !! j = Some a -> k !! j = Some b -> (a, b) ∈ zip l k.
Proof.
  intros Ha Hb. apply list_elem_of_lookup. exists j.
  apply lookup_zip_with_Some. by exists a, b.
Qed.

Section Selected.

Context (s : schema) (h t sa r : pyval).
Context (fn : pyfn) (args : list pyval) (kwargs : gmap string pyval).

Lemma check_input_int_validates (i : Z) (j : nat) (x : pyval) :
  norm_index args i = Some j -> args !! j = Some x ->
  exists rest,
    trace (check_input s (GInt i) h t sa r fn args kwargs) =
      EValidate x VNone VNone VNone VNone :: rest.
Proof.
  intros Hi Hx. unfold_wrappers.
  rewrite (list_getitem_Some _ _ _ _ Hi Hx).
  eff_simpl. repeat case_outcome; eexists; reflexivity.
Qed.

Lemma check_input_kwarg_validates (name : string) (x : pyval) :
  kwargs !! name = Some x ->
  exists rest,
    trace (check_input s (GStr name) h t sa r fn args kwargs) =
      EValidate x VNone VNone VNone VNone :: rest.
Proof.
  intros Hk. unfold_wrappers. rewrite Hk.
  eff_simpl. repeat case_outcome; eexists; reflexivity.
Qed.

Lemma check_input_named_positional_validates
    (name : string) (names : list string) (j : nat) (x : pyval) :
  kwargs !! name = None -> _get_fn_argnames fn = inr names ->
  NoDup names -> names !! j = Some name -> args !! j = Some x ->
  exists rest,
    trace (check_input s (GStr name) h t sa r fn args kwargs) =
      EValidate x VNone VNone VNone VNone :: rest.
Proof.
  intros Hk Hn Hnd Hj Hx.
  assert (odict_lookup (odict_of_pairs (zip names args)) name = Some x) as Hl.
  { apply odict_of_pairs_bound; [by apply NoDup_fst_zip|].
    by eapply elem_of_zip_lookup. }
  unfold_wrappers. rewrite Hk, Hn. eff_simpl.
  unfold odict_getitem. rewrite Hl. simpl.
  repeat case_outcome; eexists; reflexivity.
Qed.

(** Only the default path hands the sampling parameters on. *)
Lemma check_input_validate_event (g : getter) (x a b c d : pyval) :
  EValidate x a b c d ∈ trace (check_input s g h t sa r fn args kwargs) ->
  match g with
  | GNone => args !! 0%nat = Some x /\ (a, b, c, d) = (h, t, sa, r)
  | _ => (a, b, c, d) = (VNone, VNone, VNone, VNone)
  end.
Proof.
  unfold_wrappers. destruct g; eff_simpl.
  all: repeat case_outcome; intros Hin; trace_inv Hin; try done.
  all: match goal with
       | H : list_getitem args 0 = inr _ |- _ =>
           apply list_getitem_inv in H as (j & Hj & Hx)
       end.
  all: unfold norm_index in Hj; simpl in Hj; case_decide; by simplify_eq.
Qed.

End Selected.

(** ** The shape of a run of [check_output] *)

Lemma count_calls_app (tr1 tr2 : list event) :
  count_calls (tr1 ++ tr2)%list = (count_calls tr1 + count_calls tr2)%nat.
Proof.
  induction tr1 as [|ev tr1 IH]; [done|]. destruct ev; simpl; by rewrite IH.
Qed.

Lemma count_calls_warnings (s : schema) (fn : pyfn) :
  count_calls (transformer_warnings s fn) = 0%nat.
Proof. unfold transformer_warnings. by destruct (transformer s). Qed.

(** The wrapped function is called first, after the warning if there is one;
    [schema.validate] runs only once the call has returned and the selector
    has picked an object. *)
Lemma check_output_shape (s : schema) (g : getter) (h t sa r : pyval)
    (fn : pyfn) (args : list pyval) (kwargs : gmap string pyval) :
  exists post,
    trace (check_output s g h t sa r fn args kwargs) =
      (transformer_warnings s fn ++ ECall args kwargs :: post)%list /\
    (post = [] \/
     exists out obj,
       fn_call fn args kwargs = inr out /\
       outcome (select_output g out) = inr obj /\
       post = [EValidate obj h t sa r]).
Proof.
  destruct (fn_call fn args kwargs) as [e|out] eqn:Hf.
  { exists []. split; [|by left].
    by rewrite (check_output_fn_raises s g h t sa r fn args kwargs e Hf). }
  destruct (outcome (select_output g out)) as [e|obj] eqn:Hs.
  { exists []. split; [|by left].
    by rewrite (check_output_select_raises s g h t sa r fn args kwargs out e Hf Hs). }
  exists [EValidate obj h t sa r]. split; [|right; by exists out, obj].
  destruct (validate s obj h t sa r) as [e|v] eqn:Hv.
  - rewrite (check_output_validate_raises s g h t sa r fn args kwargs out obj e Hf Hs Hv).
    unfold trace; simpl. by rewrite <- app_assoc.
  - rewrite (check_output_ok s g h t sa r fn args kwargs out obj v Hf Hs Hv).
    unfold trace; simpl. by rewrite <- app_assoc.
Qed.

Lemma bind_ret_l {A B} (a : A) (k : A -> M B) : bind (ret a) k = k a.
Proof. unfold bind, ret. by destruct (k a). Qed.

Lemma bind_emit {B} (ev : event) (k : unit -> M B) :
  bind (emit ev) k = (ev :: trace (k tt), outcome (k tt)).
Proof. unfold bind, emit, trace, outcome. by destruct (k tt). Qed.

(** The transformer only decides whether the run starts with a warning. *)
Lemma check_output_transformer_irrelevant
    (s : schema) (g : getter) (h t sa r : pyval)
    (fn : pyfn) (args : list pyval) (kwargs : gmap string pyval) :
  let m0 := check_output (Schema (validate s) None) g h t sa r fn args kwargs in
  check_output s g h t sa r fn args kwargs =
    ((transformer_warnings s fn ++ trace m0)%list, outcome m0).
Proof.
  destruct s as [val [tr|]]; unfold check_output, transformer_warnings, warn;
    cbn [transformer validate].
  - by rewrite bind_emit, bind_ret_l.
  - rewrite bind_ret_l. by destruct (bind _ _).
Qed.

(** ** Runs in full *)

(** An index that selects none of the positional arguments: the handler
    builds the [SchemaError], unless [_get_fn_argnames] fails first. *)
Lemma check_input_index_out_of_range_run
    (s : schema) (g : getter) (i : Z) (h t sa r : pyval) (fn : pyfn)
    (args : list pyval) (kwargs : gmap string pyval) :
  g = GInt i \/ (exists b, g = GBool b /\ i = Z_of_bool b) ->
  norm_index args i = None ->
  check_input s g h t sa r fn args kwargs =
    ([], match _get_fn_argnames fn with
         | inr names =>
             inl (Exn SchemaError
                    (index_error_message fn g (length names)
                       (Exn IndexError (index_error_text "list" i))))
         | inl e => inl e
         end).
Proof.
  intros Hg Hi.
  assert (check_input_int s g i fn args =
            ([], match _get_fn_argnames fn with
                 | inr names =>
                     inl (Exn SchemaError
                            (index_error_message fn g (length names)
                               (Exn IndexError (index_error_text "list" i))))
                 | inl e => inl e
                 end)) as Hrun.
  { unfold check_input_int, list_getitem.
    rewrite (seq_getitem_None _ _ _ Hi). eff_simpl.
    by destruct (_get_fn_argnames fn). }
  destruct Hg as [->|(b & -> & ->)]; unfold check_input; rewrite Hrun;
    eff_simpl; by destruct (_get_fn_argnames fn).
Qed.

Lemma check_input_bool_validates
    (s : schema) (b : bool) (h t sa r : pyval) (fn : pyfn)
    (args : list pyval) (kwargs : gmap string pyval) (j : nat) (x : pyval) :
  norm_index args (Z_of_bool b) = Some j -> args !! j = Some x ->
  exists rest,
    trace (check_input s (GBool b) h t sa r fn args kwargs) =
      EValidate x VNone VNone VNone VNone :: rest.
Proof.
  intros Hi Hx. unfold_wrappers.
  rewrite (list_getitem_Some _ _ _ _ Hi Hx).
  eff_simpl. repeat case_outcome; eexists; reflexivity.
Qed.

Lemma check_input_default_validates
    (s : schema) (h t sa r : pyval) (fn : pyfn)
    (x : pyval) (rest : list pyval) (kwargs : gmap string pyval) :
  exists post,
    trace (check_input s GNone h t sa r fn (x :: rest) kwargs) =
      EValidate x h t sa r :: post.
Proof.
  unfold_wrappers. rewrite (list_getitem_Some (x :: rest) 0 0 x) by done.
  eff_simpl. repeat case_outcome; eexists; reflexivity.
Qed.

(** What follows a call of [schema.validate] in [check_input]: the call of
    the wrapped function when it returned, nothing when it raised. *)
Lemma check_input_after_validate
    (s : schema) (g : getter) (h t sa r : pyval) (fn : pyfn)
    (args : list pyval) (kwargs : gmap string pyval)
    (x a b c d : pyval) (rest : list event) :
  trace (check_input s g h t sa r fn args kwargs) =
    EValidate x a b c d :: rest ->
  match validate s x a b c d with
  | inr v =>
      exists args' kwargs',
        rest = [ECall args' kwargs'] /\
        outcome (check_input s g h t sa r fn args kwargs) =
          fn_call fn args' kwargs'
  | inl e =>
      rest = [] /\
      exists e', outcome (check_input s g h t sa r fn args kwargs) = inl e'
  end.
Proof.
  intros Ht.
  destruct (check_input_shape s g h t sa r fn args kwargs)
    as [[Ht' _] | [(x' & a' & b' & c' & d' & e & e' & Ht' & Hv & He)
                  | (x' & a' & b' & c' & d' & v & args' & kwargs' & Ht' & Hv & Hf)]];
    rewrite Ht' in Ht; simplify_eq.
  - rewrite Hv. split; [done|]. by exists e'.
  - rewrite Hv. by exists args', kwargs'.
Qed.

(** A run of [check_output], case by case. *)
Lemma check_output_run
    (s : schema) (g : getter) (h t sa r : pyval) (fn : pyfn)
    (args : list pyval) (kwargs : gmap string pyval) :
  check_output s g h t sa r fn args kwargs =
    match fn_call fn args kwargs with
    | inl e => ((transformer_warnings s fn ++ [ECall args kwargs])%list, inl e)
    | inr out =>
        match outcome (select_output g out) with
        | inl e =>
            ((transformer_warnings s fn ++ [ECall args kwargs])%list, inl e)
        | inr obj =>
            ((transformer_warnings s fn ++
              [ECall args kwargs; EValidate obj h t sa r])%list,
             match validate s obj h t sa r with
             | inr _ => inr out
             | inl e =>
                 inl (if decide (kind e = SchemaError)
                      then Exn SchemaError (check_output_message fn e)
                      else e)
             end)
        end
    end.
Proof.
  destruct (fn_call fn args kwargs) as [e|out] eqn:Hf.
  { by apply check_output_fn_raises. }
  destruct (outcome (select_output g out)) as [e|obj] eqn:Hs.
  { by apply (check_output_select_raises s g h t sa r fn args kwargs out). }
  destruct (validate s obj h t sa r) as [e|v] eqn:Hv.
  - rewrite (check_output_validate_raises s g h t sa r fn args kwargs out obj e
               Hf Hs Hv).
    by rewrite <- app_assoc.
  - rewrite (check_output_ok s g h t sa r fn args kwargs out obj v Hf Hs Hv).
    by rewrite <- app_assoc.
Qed.

(** ** Properties of the decorators *)

(** C1 (where the code departs from the claim).  When [schema.validate]
    raises a [SchemaError] on the integer path or on the string path of
    [check_input], the wrapper lets that very exception through: its message
    is the original one, without the prefix that names the wrapped function.
    On the default path the same failure is re-raised with the prefix
    [error in check_input decorator of function 'f': ]. *)
Theorem check_input_selector_paths_leave_schema_error_unprefixed :
  let e := Exn SchemaError "empty frame" in
  let run g args :=
    check_input Demo.frame_schema g VNone VNone VNone VNone Demo.f args ∅ in
  validate Demo.frame_schema Demo.empty_df VNone VNone VNone VNone = inl e /\
  run (GInt 1) [VInt 1; Demo.empty_df] =
    ([EValidate Demo.empty_df VNone VNone VNone VNone], inl e) /\
  run (GStr "df") [VInt 1; Demo.empty_df] =
    ([EValidate Demo.empty_df VNone VNone VNone VNone], inl e) /\
  message e <> check_input_message Demo.f e /\
  run GNone [Demo.empty_df; VInt 1] =
    ([EValidate Demo.empty_df VNone VNone VNone VNone],
     inl (Exn SchemaError
            "error in check_input decorator of function 'f': empty frame")).
Proof. repeat split; by vm_compute. Qed.

(** C2.  With an integer [obj_getter] in range, [check_input] calls
    [schema.validate] on the positional argument at that index and then calls
    the wrapped function with that argument replaced by what
    [schema.validate] returned (the transformed frame when the schema has a
    transformer), every other argument and the keyword arguments being left
    as they were. *)
Theorem check_input_int_passes_validated_argument
    (s : schema) (i : Z) (h t sa r : pyval) (fn : pyfn)
    (args : list pyval) (kwargs : gmap string pyval)
    (j : nat) (x v : pyval) :
  norm_index args i = Some j ->
  args !! j = Some x ->
  validate s x VNone VNone VNone VNone = inr v ->
  check_input s (GInt i) h t sa r fn args kwargs =
    ([EValidate x VNone VNone VNone VNone; ECall (<[j := v]> args) kwargs],
     fn_call fn (<[j := v]> args) kwargs)
  /\ <[j := v]> args !! j = Some v
  /\ (forall j', j' <> j -> <[j := v]> args !! j' = args !! j').
Proof.
  intros Hi Hx Hv. split; [by apply check_input_int_ok|]. split.
  - apply list_lookup_insert_eq. by eapply norm_index_lt.
  - intros j' Hne. by apply list_lookup_insert_ne.
Qed.

Lemma check_input_int_passes_validated_argument_witness :
  check_input Demo.frame_schema (GInt 1) VNone VNone VNone VNone Demo.f
    [VInt 1; Demo.df] ∅ =
    ([EValidate Demo.df VNone VNone VNone VNone; ECall [VInt 1; Demo.df'] ∅],
     inr (VTuple [VInt 1; Demo.df'])).
Proof.
  apply (check_input_int_passes_validated_argument
           Demo.frame_schema 1 VNone VNone VNone VNone Demo.f
           [VInt 1; Demo.df] ∅ 1 Demo.df Demo.df');
    reflexivity.
Defined.

(** C3.  When the wrapped function returns [out], the selector picks [obj]
    from it and [schema.validate] accepts [obj], [check_output] returns
    [out] itself: whatever [schema.validate] returned is dropped. *)
Theorem check_output_returns_output_unchanged
    (s : schema) (g : getter) (h t sa r : pyval) (fn : pyfn)
    (args : list pyval) (kwargs : gmap string pyval) (out obj v : pyval) :
  fn_call fn args kwargs = inr out ->
  outcome (select_output g out) = inr obj ->
  validate s obj h t sa r = inr v ->
  check_output s g h t sa r fn args kwargs =
    ((transformer_warnings s fn ++
      [ECall args kwargs; EValidate obj h t sa r])%list,
     inr out).
Proof.
  intros Hf Hs Hv.
  rewrite (check_output_ok s g h t sa r fn args kwargs out obj v Hf Hs Hv).
  by rewrite <- app_assoc.
Qed.

Lemma check_output_returns_output_unchanged_witness :
  validate Demo.frame_schema Demo.df (VInt 5) VNone VNone VNone = inr Demo.df' /\
  outcome (check_output Demo.frame_schema (GInt 1) (VInt 5) VNone VNone VNone
             Demo.f [VInt 1; Demo.df] ∅) =
    inr (VTuple [VInt 1; Demo.df]).
Proof.
  split; [reflexivity|].
  rewrite (check_output_returns_output_unchanged
             Demo.frame_schema (GInt 1) (VInt 5) VNone VNone VNone Demo.f
             [VInt 1; Demo.df] ∅ (VTuple [VInt 1; Demo.df]) Demo.df Demo.df');
    reflexivity.
Defined.

(** C4, as the claim states it, fails: index [5] is out of range for the two
    positional arguments, and [check_input] raises a [SchemaError]. *)
Lemma check_input_index_out_of_range_is_SchemaError :
  norm_index [VInt 1; Demo.df] 5 = None /\
  ~ (exists e,
        outcome (check_input Demo.frame_schema (GInt 5) VNone VNone VNone VNone
                   Demo.f [VInt 1; Demo.df] ∅) = inl e /\
        kind e <> SchemaError).
Proof.
  split; [reflexivity|]. intros (e & He & Hk). apply Hk.
  vm_compute in He. by simplify_eq.
Qed.

(** C4, amended.  A selector of an unsupported type makes [check_input]
    (before anything is validated or called) and [check_output] (once the
    wrapped function has returned) raise a [ValueError]; an integer selector
    out of range for a list or tuple that the wrapped function returned makes
    [check_output] raise the [IndexError] of the subscription; an integer or
    boolean selector out of range for the positional arguments makes
    [check_input] raise, with nothing validated and nothing called, a
    [SchemaError] whose message names the function, the index, the number of
    names that [_get_fn_argnames] returns and the maximum index, and quotes
    the [IndexError] of the subscription.  The one exception is a bound
    method without named parameters: for it [_get_fn_argnames] fails while
    that message is built, and its [IndexError] is what [check_input]
    raises. *)
Theorem selector_misuse_errors
    (s : schema) (h t sa r : pyval) (fn : pyfn)
    (args : list pyval) (kwargs : gmap string pyval) :
  (forall ty f,
      check_input s (GCallable ty f) h t sa r fn args kwargs =
        ([], inl (Exn ValueError (unrecognized_type_message (GCallable ty f)))))
  /\ (forall ty,
      check_input s (GOther ty) h t sa r fn args kwargs =
        ([], inl (Exn ValueError (unrecognized_type_message (GOther ty)))))
  /\ (forall ty out,
      fn_call fn args kwargs = inr out ->
      check_output s (GOther ty) h t sa r fn args kwargs =
        ((transformer_warnings s fn ++ [ECall args kwargs])%list,
         inl (Exn ValueError (unrecognized_type_message (GOther ty)))))
  /\ (forall i l,
      fn_call fn args kwargs = inr (VList l) \/
      fn_call fn args kwargs = inr (VTuple l) ->
      norm_index l i = None ->
      exists e,
        check_output s (GInt i) h t sa r fn args kwargs =
          ((transformer_warnings s fn ++ [ECall args kwargs])%list, inl e) /\
        kind e = IndexError)
  /\ (forall g i,
      g = GInt i \/ (exists b, g = GBool b /\ i = Z_of_bool b) ->
      norm_index args i = None ->
      check_input s g h t sa r fn args kwargs =
        ([], match _get_fn_argnames fn with
             | inr names =>
                 inl (Exn SchemaError
                        (index_error_message fn g (length names)
                           (Exn IndexError (index_error_text "list" i))))
             | inl e => inl e
             end))
  /\ (fn_ismethod fn = false \/ fn_argspec_args fn <> [] ->
      exists names, _get_fn_argnames fn = inr names)
  /\ (fn_ismethod fn = true -> fn_argspec_args fn = [] ->
      _get_fn_argnames fn = inl (Exn IndexError "list index out of range")).
Proof.
  repeat apply conj.
  - reflexivity.
  - reflexivity.
  - intros ty out Hf.
    by apply (check_output_select_raises s (GOther ty) h t sa r fn args kwargs out).
  - intros i l [Hf|Hf] Hi.
    + exists (Exn IndexError (index_error_text "list" i)). split; [|done].
      apply (check_output_select_raises s (GInt i) h t sa r fn args kwargs _ _ Hf).
      unfold outcome, select_output, lift, getitem; simpl.
      by rewrite (seq_getitem_None _ _ _ Hi).
    + exists (Exn IndexError (index_error_text "tuple" i)). split; [|done].
      apply (check_output_select_raises s (GInt i) h t sa r fn args kwargs _ _ Hf).
      unfold outcome, select_output, lift, getitem; simpl.
      by rewrite (seq_getitem_None _ _ _ Hi).
  - intros g i Hg Hi. by apply check_input_index_out_of_range_run.
  - intros Hfn. unfold _get_fn_argnames.
    destruct (fn_ismethod fn); [|by eexists].
    destruct (fn_argspec_args fn) as [|n rest]; [by destruct Hfn|].
    simpl. case_decide; by eexists.
  - intros Hm Ha. unfold _get_fn_argnames. by rewrite Hm, Ha.
Qed.

Lemma selector_misuse_errors_witness :
  check_input Demo.frame_schema (GInt 5) VNone VNone VNone VNone Demo.f
    [VInt 1; Demo.df] ∅ =
    ([], inl (Exn SchemaError
                (index_error_message Demo.f (GInt 5) 2
                   (Exn IndexError "list index out of range"))))
  /\ exists e,
      check_output Demo.plain_schema (GInt 2) VNone VNone VNone VNone Demo.f
        [VInt 1; Demo.df] ∅ = ([ECall [VInt 1; Demo.df] ∅], inl e) /\
      kind e = IndexError.
Proof.
  pose proof (selector_misuse_errors Demo.frame_schema VNone VNone VNone VNone
                Demo.f [VInt 1; Demo.df] ∅) as (_ & _ & _ & _ & Hin & _).
  pose proof (selector_misuse_errors Demo.plain_schema VNone VNone VNone VNone
                Demo.f [VInt 1; Demo.df] ∅) as (_ & _ & _ & Hout & _).
  split.
  - apply (Hin (GInt 5) 5); [by left | reflexivity].
  - apply (Hout 2 [VInt 1; Demo.df]); [right|]; reflexivity.
Defined.

(** C5.  In [check_input] the selected argument is handed to
    [schema.validate] first; the wrapped function is called only after
    [schema.validate] has returned, and then it is called, once, as the last
    step; a validation that raises leaves the function uncalled.  In
    [check_output] the wrapped function is called exactly once, with the
    arguments as given, and [schema.validate] is called on the selected part
    of its return value (on the return value itself without a selector), and
    only after that call has returned. *)
Theorem validation_order
    (s : schema) (g : getter) (h t sa r : pyval) (fn : pyfn)
    (args : list pyval) (kwargs : gmap string pyval) :
  let mi := check_input s g h t sa r fn args kwargs in
  let mo := check_output s g h t sa r fn args kwargs in
  (forall a k, ECall a k ∈ trace mi ->
     exists x a1 a2 a3 a4 v,
       trace mi = [EValidate x a1 a2 a3 a4; ECall a k] /\
       validate s x a1 a2 a3 a4 = inr v)
  /\ (forall x a1 a2 a3 a4 e,
        EValidate x a1 a2 a3 a4 ∈ trace mi ->
        validate s x a1 a2 a3 a4 = inl e ->
        count_calls (trace mi) = 0%nat)
  /\ count_calls (trace mo) = 1%nat
  /\ (exists post,
        trace mo = (transformer_warnings s fn ++ ECall args kwargs :: post)%list /\
        (post = [] \/
         exists out obj,
           fn_call fn args kwargs = inr out /\
           outcome (select_output g out) = inr obj /\
           post = [EValidate obj h t sa r]))
  /\ (forall x a b c d rest,
        trace mi = EValidate x a b c d :: rest ->
        match validate s x a b c d with
        | inr v =>
            exists args' kwargs',
              rest = [ECall args' kwargs'] /\
              outcome mi = fn_call fn args' kwargs'
        | inl e => rest = [] /\ exists e', outcome mi = inl e'
        end)
  /\ (forall i j x,
        g = GInt i -> norm_index args i = Some j -> args !! j = Some x ->
        exists rest, trace mi = EValidate x VNone VNone VNone VNone :: rest)
  /\ (forall b j x,
        g = GBool b -> norm_index args (Z_of_bool b) = Some j ->
        args !! j = Some x ->
        exists rest, trace mi = EValidate x VNone VNone VNone VNone :: rest)
  /\ (forall name x,
        g = GStr name -> kwargs !! name = Some x ->
        exists rest, trace mi = EValidate x VNone VNone VNone VNone :: rest)
  /\ (forall name names j x,
        g = GStr name -> kwargs !! name = None ->
        _get_fn_argnames fn = inr names -> NoDup names ->
        names !! j = Some name -> args !! j = Some x ->
        exists rest, trace mi = EValidate x VNone VNone VNone VNone :: rest)
  /\ (forall x rest,
        g = GNone -> args = x :: rest ->
        exists post, trace mi = EValidate x h t sa r :: post)
  /\ (forall e,
        fn_call fn args kwargs = inl e ->
        mo = ((transformer_warnings s fn ++ [ECall args kwargs])%list, inl e))
  /\ (forall out obj,
        fn_call fn args kwargs = inr out ->
        outcome (select_output g out) = inr obj ->
        trace mo =
          (transformer_warnings s fn ++
           [ECall args kwargs; EValidate obj h t sa r])%list)
  /\ (forall out,
        g = GNone -> fn_call fn args kwargs = inr out ->
        trace mo =
          (transformer_warnings s fn ++
           [ECall args kwargs; EValidate out h t sa r])%list).
Proof.
  intros mi mo.
  assert (forall out obj,
             fn_call fn args kwargs = inr out ->
             outcome (select_output g out) = inr obj ->
             trace mo =
               (transformer_warnings s fn ++
                [ECall args kwargs; EValidate obj h t sa r])%list) as Hval.
  { intros out obj Hf Hs. subst mo. rewrite check_output_run, Hf, Hs. done. }
  destruct (check_input_shape s g h t sa r fn args kwargs)
    as [[Ht _] | [(x & a & b & c & d & e & e' & Ht & Hv & _)
               | (x & a & b & c & d & v & args' & kwargs' & Ht & Hv & _)]];
    fold mi in Ht.
  all: destruct (check_output_shape s g h t sa r fn args kwargs)
         as (post & Hpost & Hcase); fold mo in Hpost.
  all: split; [intros a0 k0 Hin; rewrite Ht in Hin; trace_inv Hin; by eauto 10|].
  all: split; [intros x0 b1 b2 b3 b4 e0 Hin Hraise; rewrite Ht in Hin |- *;
               trace_inv Hin; first [reflexivity | congruence]|].
  all: split; [rewrite Hpost, count_calls_app, count_calls_warnings;
               by destruct Hcase as [->|(? & ? & _ & _ & ->)]|].
  all: split; [by exists post|].
  all: split; [intros x0 a0 b0 c0 d0 rest0;
               apply (check_input_after_validate s g h t sa r fn args kwargs)|].
  all: split; [intros i j x0 -> Hi Hx; by apply (check_input_int_validates _ _ _ _ _ _ _ _ _ j)|].
  all: split; [intros b0 j x0 -> Hi Hx; by apply (check_input_bool_validates _ _ _ _ _ _ _ _ _ j)|].
  all: split; [intros name x0 -> Hk; by apply check_input_kwarg_validates|].
  all: split; [intros name names j x0 -> Hk Hn Hnd Hj Hx;
               by apply (check_input_named_positional_validates _ _ _ _ _ _ _ _ _ names j)|].
  all: split; [intros x0 rest0 -> ->; apply check_input_default_validates|].
  all: split; [intros e0 Hf; subst mo; by rewrite check_output_run, Hf|].
  all: split; [done|].
  all: intros out -> Hf; by apply (Hval out out).
Qed.

Lemma validation_order_witness :
  count_calls (trace (check_input Demo.frame_schema (GInt 1) VNone VNone VNone
                        VNone Demo.f [VInt 1; Demo.empty_df] ∅)) = 0%nat.
Proof.
  pose proof (validation_order Demo.frame_schema (GInt 1) VNone VNone VNone
                VNone Demo.f [VInt 1; Demo.empty_df] ∅) as H.
  cbv zeta in H. destruct H as (_ & Hraise & _).
  apply (Hraise Demo.empty_df VNone VNone VNone VNone
           (Exn SchemaError "empty frame")).
  - vm_compute. apply list_elem_of_here.
  - reflexivity.
Defined.

(** C6.  The object handed to [schema.validate] is selected
    - by position: with an integer [obj_getter], [check_input] validates the
      positional argument at that index and [check_output] the item of the
      output at that index;
    - by name: with a string [obj_getter], [check_input] validates
      [kwargs[name]] when [name] is a keyword argument, and otherwise the
      positional argument that stands where [name] stands in the declared
      parameter list, from which a leading [self] of a method is left out;
      [check_output] validates [out[name]];
    - by a callable applied to the output, in [check_output] only:
      [check_input] rejects a callable with a [ValueError]. *)
Theorem selection_modes
    (s : schema) (h t sa r : pyval) (fn : pyfn)
    (args : list pyval) (kwargs : gmap string pyval) :
  (forall i j x,
      norm_index args i = Some j -> args !! j = Some x ->
      exists rest,
        trace (check_input s (GInt i) h t sa r fn args kwargs) =
          EValidate x VNone VNone VNone VNone :: rest)
  /\ (forall name x,
      kwargs !! name = Some x ->
      exists rest,
        trace (check_input s (GStr name) h t sa r fn args kwargs) =
          EValidate x VNone VNone VNone VNone :: rest)
  /\ (forall name names j x,
      kwargs !! name = None -> _get_fn_argnames fn = inr names ->
      NoDup names -> names !! j = Some name -> args !! j = Some x ->
      exists rest,
        trace (check_input s (GStr name) h t sa r fn args kwargs) =
          EValidate x VNone VNone VNone VNone :: rest)
  /\ (forall rest,
      fn_ismethod fn = true -> fn_argspec_args fn = "self" :: rest ->
      _get_fn_argnames fn = inr rest)
  /\ (fn_ismethod fn = false -> _get_fn_argnames fn = inr (fn_argspec_args fn))
  /\ (forall ty f out obj,
      fn_call fn args kwargs = inr out -> f out = inr obj ->
      trace (check_output s (GCallable ty f) h t sa r fn args kwargs) =
        (transformer_warnings s fn ++
         [ECall args kwargs; EValidate obj h t sa r])%list)
  /\ (forall ty f,
      check_input s (GCallable ty f) h t sa r fn args kwargs =
        ([], inl (Exn ValueError (unrecognized_type_message (GCallable ty f)))))
  /\ (forall i out obj,
      fn_call fn args kwargs = inr out -> getitem out (KInt i) = inr obj ->
      trace (check_output s (GInt i) h t sa r fn args kwargs) =
        (transformer_warnings s fn ++
         [ECall args kwargs; EValidate obj h t sa r])%list)
  /\ (forall name out obj,
      fn_call fn args kwargs = inr out -> getitem out (KStr name) = inr obj ->
      trace (check_output s (GStr name) h t sa r fn args kwargs) =
        (transformer_warnings s fn ++
         [ECall args kwargs; EValidate obj h t sa r])%list).
Proof.
  assert (forall g out obj,
             fn_call fn args kwargs = inr out ->
             outcome (select_output g out) = inr obj ->
             trace (check_output s g h t sa r fn args kwargs) =
               (transformer_warnings s fn ++
                [ECall args kwargs; EValidate obj h t sa r])%list) as Hout.
  { intros g out obj Hf Hs.
    destruct (validate s obj h t sa r) as [e|v] eqn:Hv.
    - rewrite (check_output_validate_raises s g h t sa r fn args kwargs out obj e Hf Hs Hv).
      unfold trace; simpl. by rewrite <- app_assoc.
    - rewrite (check_output_ok s g h t sa r fn args kwargs out obj v Hf Hs Hv).
      unfold trace; simpl. by rewrite <- app_assoc. }
  repeat apply conj.
  - intros i j x. apply check_input_int_validates.
  - intros name x. apply check_input_kwarg_validates.
  - intros name names j x. apply check_input_named_positional_validates.
  - intros rest Hm Ha. unfold _get_fn_argnames. by rewrite Hm, Ha.
  - intros Hm. unfold _get_fn_argnames. by rewrite Hm.
  - intros ty f out obj Hf Hs. by apply (Hout (GCallable ty f) out obj).
  - reflexivity.
  - intros i out obj Hf Hs. by apply (Hout (GInt i) out obj).
  - intros name out obj Hf Hs. by apply (Hout (GStr name) out obj).
Qed.

Lemma selection_modes_witness :
  (exists rest,
      trace (check_input Demo.frame_schema (GStr "df") VNone VNone VNone VNone
               Demo.m [Demo.df] ∅) =
        EValidate Demo.df VNone VNone VNone VNone :: rest)
  /\ _get_fn_argnames Demo.m = inr ["df"].
Proof.
  pose proof (selection_modes Demo.frame_schema VNone VNone VNone VNone
                Demo.m [Demo.df] ∅) as (_ & _ & Hname & Hself & _).
  split.
  - apply (Hname "df" ["df"] 0%nat Demo.df); try reflexivity.
    apply NoDup_singleton.
  - apply (Hself ["df"]); reflexivity.
Defined.

(** C7.  [check_output] warns exactly when [schema.transformer] is not
    [None], with the one message that names the wrapped function.  The
    warning is the first thing that happens and changes nothing else: the
    wrapped function is then called, [schema.validate] is called on the
    object selected from its output, and what the call returns or raises is
    decided by that validation alone, as it is for the same schema without a
    transformer. *)
Theorem check_output_transformer_warning
    (s : schema) (g : getter) (h t sa r : pyval) (fn : pyfn)
    (args : list pyval) (kwargs : gmap string pyval) :
  let m := check_output s g h t sa r fn args kwargs in
  let m0 := check_output (Schema (validate s) None) g h t sa r fn args kwargs in
  (forall msg,
      EWarn msg ∈ trace m <->
      transformer s <> None /\ msg = transformer_warning fn)
  /\ trace m = (transformer_warnings s fn ++ trace m0)%list
  /\ outcome m = outcome m0
  /\ ECall args kwargs ∈ trace m
  /\ (transformer s <> None ->
      exists post,
        trace m = EWarn (transformer_warning fn) :: ECall args kwargs :: post)
  /\ (forall out obj,
      fn_call fn args kwargs = inr out ->
      outcome (select_output g out) = inr obj ->
      trace m =
        (transformer_warnings s fn ++
         [ECall args kwargs; EValidate obj h t sa r])%list /\
      outcome m =
        match validate s obj h t sa r with
        | inr _ => inr out
        | inl e =>
            inl (if decide (kind e = SchemaError)
                 then Exn SchemaError (check_output_message fn e)
                 else e)
        end).
Proof.
  intros m m0.
  pose proof (check_output_transformer_irrelevant s g h t sa r fn args kwargs)
    as Hm. cbv zeta in Hm. fold m m0 in Hm.
  destruct (check_output_shape (Schema (validate s) None) g h t sa r fn args kwargs)
    as (post & Hpost & Hcase). fold m0 in Hpost.
  simpl in Hpost.
  assert (forall msg, EWarn msg ∉ trace m0) as Hnowarn.
  { intros msg Hin. rewrite Hpost in Hin.
    destruct Hcase as [->|(? & ? & _ & _ & ->)]; trace_inv Hin. }
  assert (trace m = (transformer_warnings s fn ++ trace m0)%list) as Htr
    by (by rewrite Hm).
  assert (outcome m = outcome m0) as Hres by (by rewrite Hm).
  split; [|split; [done|split; [done|split; [|split]]]].
  - intros msg. rewrite Htr. unfold transformer_warnings.
    destruct (transformer s); simpl; split.
    + intros Hin. apply elem_of_cons in Hin as [Heq|Hin]; [by simplify_eq|].
      by destruct (Hnowarn msg).
    + intros [_ ->]. apply list_elem_of_here.
    + intros Hin. by destruct (Hnowarn msg).
    + by intros [Hne _].
  - rewrite Htr. apply elem_of_app. right. rewrite Hpost. apply list_elem_of_here.
  - intros Hne. exists post. rewrite Htr, Hpost. unfold transformer_warnings.
    by destruct (transformer s).
  - intros out obj Hf Hs. subst m. rewrite check_output_run, Hf, Hs. done.
Qed.

(** C8.  In [check_input] the decorator's [head], [tail], [sample] and
    [random_state] reach [schema.validate] on the default path only, where
    the validated object is [args[0]].  With an integer or a string
    [obj_getter], [schema.validate] is called on the selected argument with
    its defaults, [None] for each of the four, and the run is the same
    whatever the decorator was given for them. *)
Theorem check_input_sampling_only_on_default_path
    (s : schema) (g : getter) (h t sa r h' t' sa' r' : pyval) (fn : pyfn)
    (args : list pyval) (kwargs : gmap string pyval) :
  (g <> GNone ->
     check_input s g h t sa r fn args kwargs =
       check_input s g h' t' sa' r' fn args kwargs)
  /\ (g <> GNone ->
      forall x a b c d,
        EValidate x a b c d ∈ trace (check_input s g h t sa r fn args kwargs) ->
        (a, b, c, d) = (VNone, VNone, VNone, VNone))
  /\ (forall x a b c d,
        EValidate x a b c d ∈
          trace (check_input s GNone h t sa r fn args kwargs) ->
        args !! 0%nat = Some x /\ (a, b, c, d) = (h, t, sa, r))
  /\ (forall x rest,
        args = x :: rest ->
        exists post,
          trace (check_input s GNone h t sa r fn args kwargs) =
            EValidate x h t sa r :: post)
  /\ (forall i j x,
        norm_index args i = Some j -> args !! j = Some x ->
        exists post,
          trace (check_input s (GInt i) h t sa r fn args kwargs) =
            EValidate x VNone VNone VNone VNone :: post)
  /\ (forall b j x,
        norm_index args (Z_of_bool b) = Some j -> args !! j = Some x ->
        exists post,
          trace (check_input s (GBool b) h t sa r fn args kwargs) =
            EValidate x VNone VNone VNone VNone :: post)
  /\ (forall name x,
        kwargs !! name = Some x ->
        exists post,
          trace (check_input s (GStr name) h t sa r fn args kwargs) =
            EValidate x VNone VNone VNone VNone :: post)
  /\ (forall name names j x,
        kwargs !! name = None -> _get_fn_argnames fn = inr names ->
        NoDup names -> names !! j = Some name -> args !! j = Some x ->
        exists post,
          trace (check_input s (GStr name) h t sa r fn args kwargs) =
            EValidate x VNone VNone VNone VNone :: post).
Proof.
  repeat apply conj.
  - intros Hg. by destruct g.
  - intros Hg x a b c d Hin.
    apply check_input_validate_event in Hin. by destruct g.
  - intros x a b c d Hin. by apply check_input_validate_event in Hin.
  - intros x rest ->. apply check_input_default_validates.
  - intros i j x. apply check_input_int_validates.
  - intros b j x. apply check_input_bool_validates.
  - intros name x. apply check_input_kwarg_validates.
  - intros name names j x. apply check_input_named_positional_validates.
Qed.

Lemma check_input_sampling_only_on_default_path_witness :
  check_input Demo.frame_schema (GInt 1) (VInt 5) VNone VNone VNone Demo.f
    [VInt 1; Demo.df] ∅ =
  check_input Demo.frame_schema (GInt 1) VNone (VInt 2) VNone VNone Demo.f
    [VInt 1; Demo.df] ∅.
Proof.
  pose proof (check_input_sampling_only_on_default_path
                Demo.frame_schema (GInt 1) (VInt 5) VNone VNone VNone
                VNone (VInt 2) VNone VNone Demo.f [VInt 1; Demo.df] ∅)
    as (Hsame & _).
  apply Hsame. discriminate.
Defined.

(** C9, as the claim states it, fails: [collect] is a bound method without
    named parameters, the name [df] is no keyword argument and no name is
    bound positionally, and [check_input] raises the [IndexError] of
    [_get_fn_argnames], not a [KeyError]. *)
Lemma check_input_unbound_name_on_nameless_method_is_IndexError :
  ((∅ : gmap string pyval) !! "df" = None) /\
  ("df" ∉ (zip (fn_argspec_args Demo.collect) [Demo.df]).*1) /\
  ~ (exists e,
        outcome (check_input Demo.frame_schema (GStr "df") VNone VNone VNone
                   VNone Demo.collect [Demo.df] ∅) = inl e /\
        kind e = KeyError).
Proof.
  split; [reflexivity|]. split.
  - simpl. apply not_elem_of_nil.
  - intros (e & He & Hk). vm_compute in He. by simplify_eq.
Qed.

(** C9, amended.  With a string [obj_getter] that is not a key of [kwargs],
    [check_input] validates nothing and does not call the wrapped function
    when the name is not bound positionally.  If [_get_fn_argnames] returns
    the parameter names and zipping them with the positional arguments does
    not bind the name, the call raises a [KeyError], which is neither a
    [SchemaError] nor a [ValueError].  If the wrapped function is a bound
    method without named parameters, [_get_fn_argnames] fails and the call
    raises its [IndexError] instead. *)
Theorem check_input_unbound_name_raises_KeyError
    (s : schema) (name : string) (h t sa r : pyval) (fn : pyfn)
    (args : list pyval) (kwargs : gmap string pyval) :
  kwargs !! name = None ->
  (forall names,
      _get_fn_argnames fn = inr names ->
      name ∉ (zip names args).*1 ->
      exists e,
        check_input s (GStr name) h t sa r fn args kwargs = ([], inl e) /\
        kind e = KeyError /\ kind e <> SchemaError /\ kind e <> ValueError)
  /\ (fn_ismethod fn = true -> fn_argspec_args fn = [] ->
      check_input s (GStr name) h t sa r fn args kwargs =
        ([], inl (Exn IndexError "list index out of range")))
  /\ (fn_ismethod fn = false \/ fn_argspec_args fn <> [] ->
      exists names, _get_fn_argnames fn = inr names).
Proof.
  intros Hk. repeat apply conj.
  - intros names Hn Hz. eexists. split.
    + apply (check_input_named_unbound _ _ _ _ _ _ _ _ _ names Hk Hn).
      by apply odict_of_pairs_unbound.
    + done.
  - intros Hm Ha. unfold_wrappers. rewrite Hk. unfold _get_fn_argnames.
    rewrite Hm, Ha. by eff_simpl.
  - intros Hfn. unfold _get_fn_argnames.
    destruct (fn_ismethod fn); [|by eexists].
    destruct (fn_argspec_args fn) as [|n rest]; [by destruct Hfn|].
    simpl. case_decide; by eexists.
Qed.

Lemma check_input_unbound_name_raises_KeyError_witness :
  exists e,
    check_input Demo.frame_schema (GStr "df") VNone VNone VNone VNone Demo.f
      [VInt 1] ∅ = ([], inl e) /\
    kind e = KeyError /\ kind e <> SchemaError /\ kind e <> ValueError.
Proof.
  pose proof (check_input_unbound_name_raises_KeyError
                Demo.frame_schema "df" VNone VNone VNone VNone Demo.f
                [VInt 1] ∅ eq_refl) as (Hkey & _).
  apply (Hkey ["x"; "df"]).
  - reflexivity.
  - simpl. intros H. apply list_elem_of_singleton in H. discriminate H.
Defined.

(** C10.  With [obj_getter] left at [None] and no positional argument,
    [check_input] raises the [IndexError] of [args[0]], whatever the keyword
    arguments hold: nothing is validated and the wrapped function is not
    called. *)
Theorem check_input_no_positional_raises_IndexError
    (s : schema) (h t sa r : pyval) (fn : pyfn)
    (kwargs : gmap string pyval) :
  check_input s GNone h t sa r fn [] kwargs =
    ([], inl (Exn IndexError "list index out of range")).
Proof. reflexivity. Qed.

(** ** Further properties of the wrappers *)

Lemma string_append_assoc (a b c : string) :
  (a +:+ b) +:+ c = a +:+ (b +:+ c).
Proof.
  induction a as [|ch a IH]; [done|].
  change (String ch ((a +:+ b) +:+ c) = String ch (a +:+ (b +:+ c))).
  by rewrite IH.
Qed.

Lemma check_input_message_prefix (fn : pyfn) (e : exn) :
  check_input_message fn e =
    ("error in check_input decorator of function '" +:+ fn_name fn +:+ "': ")
    +:+ message e.
Proof. unfold check_input_message. by rewrite !string_append_assoc. Qed.

Lemma check_output_message_prefix (fn : pyfn) (e : exn) :
  check_output_message fn e =
    ("error in check_output decorator of function '" +:+ fn_name fn +:+ "': ")
    +:+ message e.
Proof. unfold check_output_message. by rewrite !string_append_assoc. Qed.

Lemma norm_index_nonneg {A} (l : list A) (i : Z) :
  0 <= i < Z.of_nat (length l) -> norm_index l i = Some (Z.to_nat i).
Proof.
  intros Hi. unfold norm_index.
  destruct (decide (i < 0)); [lia|]. by rewrite decide_True by lia.
Qed.

Lemma norm_index_neg {A} (l : list A) (i : Z) :
  - Z.of_nat (length l) <= i < 0 ->
  norm_index l i = Some (Z.to_nat (i + Z.of_nat (length l))).
Proof.
  intros Hi. unfold norm_index.
  destruct (decide (i < 0)); [|lia]. by rewrite decide_True by lia.
Qed.

Lemma norm_index_out {A} (l : list A) (i : Z) :
  i < - Z.of_nat (length l) \/ Z.of_nat (length l) <= i ->
  norm_index l i = None.
Proof.
  intros Hi. unfold norm_index.
  destruct (decide (i < 0)); by rewrite decide_False by lia.
Qed.

Lemma odict_setitem_fresh (d : odict) (k : string) (v : pyval) :
  k ∉ d.*1 -> odict_setitem d k v = (d ++ [(k, v)])%list.
Proof.
  induction d as [|[k' v'] d IH]; intros Hk; [done|]. simpl in *.
  apply not_elem_of_cons in Hk as [Hne Hk].
  rewrite decide_False by done. by rewrite IH.
Qed.

Lemma odict_fold_NoDup (ps : list (string * pyval)) (d : odict) :
  NoDup (d ++ ps)%list.*1 -> fold_left odict_step ps d = (d ++ ps)%list.
Proof.
  revert d. induction ps as [|[k v] ps IH]; intros d Hnd; simpl.
  - by rewrite app_nil_r.
  - assert (k ∉ d.*1) as Hk.
    { rewrite fmap_app in Hnd. apply NoDup_app in Hnd as (_ & Hd & _).
      intros Hin. apply (Hd k Hin). simpl. apply list_elem_of_here. }
    unfold odict_step at 2. simpl. rewrite odict_setitem_fresh by done.
    rewrite IH; rewrite <- app_assoc; done.
Qed.

Lemma odict_of_pairs_NoDup (ps : list (string * pyval)) :
  NoDup ps.*1 -> odict_of_pairs ps = ps.
Proof. intros Hnd. unfold odict_of_pairs. by rewrite odict_fold_NoDup. Qed.

Lemma odict_setitem_values (d : odict) (j : nat) (k : string) (x v : pyval) :
  NoDup d.*1 -> d !! j = Some (k, x) ->
  odict_values (odict_setitem d k v) = <[j := v]> (d.*2).
Proof.
  revert j. induction d as [|[k' v'] d IH]; intros j Hnd Hj; [done|].
  simpl in *. apply NoDup_cons in Hnd as [Hk' Hnd].
  destruct j as [|j]; simpl in *.
  - simplify_eq. by rewrite decide_True.
  - rewrite decide_False.
    + unfold odict_values in *. simpl. f_equal. by apply IH.
    + intros ->. apply Hk'. apply list_elem_of_fmap. exists (k, x).
      split; [done|]. apply list_elem_of_lookup. by exists j.
Qed.

Lemma snd_zip_take {A B} (l : list A) (k : list B) :
  (zip l k).*2 = take (length l) k.
Proof.
  revert k. induction l as [|a l IH]; intros [|b k]; simpl; try done.
  by rewrite IH.
Qed.

(** X1.  [check_input] returns a value only along one road: [schema.validate]
    was called once and returned, the wrapped function was then called once,
    and the value is the one that call returned. *)
Theorem check_input_returns_only_after_validation
    (s : schema) (g : getter) (h t sa r : pyval) (fn : pyfn)
    (args : list pyval) (kwargs : gmap string pyval) (w : pyval) :
  outcome (check_input s g h t sa r fn args kwargs) = inr w ->
  exists x a b c d v args' kwargs',
    trace (check_input s g h t sa r fn args kwargs) =
      [EValidate x a b c d; ECall args' kwargs'] /\
    validate s x a b c d = inr v /\
    fn_call fn args' kwargs' = inr w.
Proof.
  intros Hw.
  destruct (check_input_shape s g h t sa r fn args kwargs)
    as [[_ [e He]] | [(x & a & b & c & d & e & e' & _ & _ & He)
                     | (x & a & b & c & d & v & args' & kwargs' & Ht & Hv & Hf)]].
  - congruence.
  - congruence.
  - exists x, a, b, c, d, v, args', kwargs'. repeat split; congruence.
Qed.

Lemma check_input_returns_only_after_validation_witness :
  exists x a b c d v args' kwargs',
    trace (check_input Demo.frame_schema (GStr "df") VNone VNone VNone VNone
             Demo.f [VInt 1; Demo.df] ∅) =
      [EValidate x a b c d; ECall args' kwargs'] /\
    validate Demo.frame_schema x a b c d = inr v /\
    fn_call Demo.f args' kwargs' = inr (VTuple [VInt 1; Demo.df']).
Proof.
  apply (check_input_returns_only_after_validation
           Demo.frame_schema (GStr "df") VNone VNone VNone VNone Demo.f
           [VInt 1; Demo.df] ∅ (VTuple [VInt 1; Demo.df'])).
  reflexivity.
Defined.

(** X2.  [check_output] returns a value only if the wrapped function returned
    that very value, the selector picked an object from it and
    [schema.validate] accepted that object with the decorator's sampling
    parameters. *)
Theorem check_output_returns_only_after_validation
    (s : schema) (g : getter) (h t sa r : pyval) (fn : pyfn)
    (args : list pyval) (kwargs : gmap string pyval) (w : pyval) :
  outcome (check_output s g h t sa r fn args kwargs) = inr w ->
  fn_call fn args kwargs = inr w /\
  exists obj v,
    outcome (select_output g w) = inr obj /\
    validate s obj h t sa r = inr v.
Proof.
  intros Hw.
  destruct (fn_call fn args kwargs) as [e|out] eqn:Hf.
  { rewrite (check_output_fn_raises s g h t sa r fn args kwargs e Hf) in Hw.
    discriminate Hw. }
  destruct (outcome (select_output g out)) as [e|obj] eqn:Hs.
  { rewrite (check_output_select_raises s g h t sa r fn args kwargs out e Hf Hs) in Hw.
    discriminate Hw. }
  destruct (validate s obj h t sa r) as [e|v] eqn:Hv.
  { rewrite (check_output_validate_raises s g h t sa r fn args kwargs out obj e Hf Hs Hv) in Hw.
    discriminate Hw. }
  rewrite (check_output_ok s g h t sa r fn args kwargs out obj v Hf Hs Hv) in Hw.
  unfold outcome in Hw; simpl in Hw. simplify_eq.
  split; [done|]. by exists obj, v.
Qed.

Lemma check_output_returns_only_after_validation_witness :
  fn_call Demo.report [Demo.df] ∅ = inr (VDict [(KStr "frame", Demo.df)]) /\
  exists obj v,
    outcome (select_output (GStr "frame") (VDict [(KStr "frame", Demo.df)])) =
      inr obj /\
    validate Demo.plain_schema obj VNone VNone VNone VNone = inr v.
Proof.
  apply (check_output_returns_only_after_validation
           Demo.plain_schema (GStr "frame") VNone VNone VNone VNone
           Demo.report [Demo.df] ∅ (VDict [(KStr "frame", Demo.df)])).
  reflexivity.
Defined.

(** X3.  When the wrapped function raises, [check_output] raises that same
    exception, a [SchemaError] included: it is given no prefix, and
    [schema.validate] is not called. *)
Theorem check_output_function_error_propagates
    (s : schema) (g : getter) (h t sa r : pyval) (fn : pyfn)
    (args : list pyval) (kwargs : gmap string pyval) (e : exn) :
  fn_call fn args kwargs = inl e ->
  check_output s g h t sa r fn args kwargs =
    ((transformer_warnings s fn ++ [ECall args kwargs])%list, inl e).
Proof. apply check_output_fn_raises. Qed.

Lemma check_output_function_error_propagates_witness :
  check_output Demo.frame_schema GNone VNone VNone VNone VNone Demo.failing
    [Demo.df] ∅ =
    ([EWarn (transformer_warning Demo.failing); ECall [Demo.df] ∅],
     inl (Exn SchemaError "raised inside")).
Proof.
  apply (check_output_function_error_propagates
           Demo.frame_schema GNone VNone VNone VNone VNone Demo.failing
           [Demo.df] ∅ (Exn SchemaError "raised inside")).
  reflexivity.
Defined.

(** X4.  When picking the object out of the output fails, [check_output]
    raises the exception of the subscription or of the callable as it is, and
    [schema.validate] is not called.  For a dictionary that lacks the key of
    a string, integer or boolean selector this is a [KeyError]; for a list or
    tuple and a string selector, a [TypeError]. *)
Theorem check_output_selection_error_propagates
    (s : schema) (h t sa r : pyval) (fn : pyfn)
    (args : list pyval) (kwargs : gmap string pyval) (out : pyval) :
  fn_call fn args kwargs = inr out ->
  (forall g e,
      outcome (select_output g out) = inl e ->
      check_output s g h t sa r fn args kwargs =
        ((transformer_warnings s fn ++ [ECall args kwargs])%list, inl e))
  /\ (forall g key items,
      (exists name, g = GStr name /\ key = KStr name) \/
      (exists i, g = GInt i /\ key = KInt i) \/
      (exists b, g = GBool b /\ key = KBool b) ->
      out = VDict items -> items_lookup items key = None ->
      exists e,
        check_output s g h t sa r fn args kwargs =
          ((transformer_warnings s fn ++ [ECall args kwargs])%list, inl e) /\
        getitem out key = inl e /\
        kind e = KeyError)
  /\ (forall name l,
      out = VList l \/ out = VTuple l ->
      exists e,
        outcome (check_output s (GStr name) h t sa r fn args kwargs) = inl e /\
        kind e = TypeError).
Proof.
  intros Hf. repeat apply conj.
  - intros g e Hs. by apply (check_output_select_raises s g h t sa r fn args kwargs out).
  - intros g key items Hg -> Hl.
    exists (Exn KeyError (repr_key key)).
    assert (getitem (VDict items) key = inl (Exn KeyError (repr_key key))) as Hget.
    { unfold getitem, map_getitem. rewrite Hl. by destruct key. }
    split; [|done].
    apply (check_output_select_raises s g h t sa r fn args kwargs _ _ Hf).
    destruct Hg as [(n & -> & ->)|[(i & -> & ->)|(b & -> & ->)]];
      unfold outcome, select_output, lift; simpl; exact Hget.
  - intros name l [->| ->].
    + exists (Exn TypeError "list indices must be integers or slices, not str").
      split; [|done].
      by rewrite (check_output_select_raises s (GStr name) h t sa r fn args
                    kwargs _ _ Hf eq_refl).
    + exists (Exn TypeError "tuple indices must be integers or slices, not str").
      split; [|done].
      by rewrite (check_output_select_raises s (GStr name) h t sa r fn args
                    kwargs _ _ Hf eq_refl).
Qed.

Lemma check_output_selection_error_propagates_witness :
  exists e,
    check_output Demo.plain_schema (GStr "table") VNone VNone VNone VNone
      Demo.report [Demo.df] ∅ = ([ECall [Demo.df] ∅], inl e) /\
    getitem (VDict [(KStr "frame", Demo.df)]) (KStr "table") = inl e /\
    kind e = KeyError.
Proof.
  pose proof (check_output_selection_error_propagates
                Demo.plain_schema VNone VNone VNone VNone Demo.report
                [Demo.df] ∅ (VDict [(KStr "frame", Demo.df)]) eq_refl)
    as (_ & Hkey & _).
  apply (Hkey (GStr "table") (KStr "table") [(KStr "frame", Demo.df)]);
    [left; by exists "table" | reflexivity | reflexivity].
Defined.

(** X5.  On the default path of [check_input] (no [obj_getter]) an exception
    of [schema.validate] ends the call before the wrapped function runs.  A
    [SchemaError] is raised again as a [SchemaError] whose message is
    [error in check_input decorator of function '<name>': ] followed by the
    original message; an exception of any other class is raised as it is. *)
Theorem check_input_default_path_validation_error
    (s : schema) (h t sa r : pyval) (fn : pyfn)
    (x : pyval) (rest : list pyval) (kwargs : gmap string pyval) (e : exn) :
  validate s x h t sa r = inl e ->
  check_input s GNone h t sa r fn (x :: rest) kwargs =
    ([EValidate x h t sa r],
     inl (if decide (kind e = SchemaError)
          then Exn SchemaError
                 (("error in check_input decorator of function '" +:+
                   fn_name fn +:+ "': ") +:+ message e)
          else e)).
Proof.
  intros Hv. rewrite <- check_input_message_prefix. unfold_wrappers.
  rewrite (list_getitem_Some (x :: rest) 0 0 x) by done.
  eff_simpl. rewrite Hv. by case_decide.
Qed.

Lemma check_input_default_path_validation_error_witness :
  check_input Demo.frame_schema GNone VNone VNone VNone VNone Demo.f
    [Demo.empty_df; VInt 1] ∅ =
    ([EValidate Demo.empty_df VNone VNone VNone VNone],
     inl (Exn SchemaError
            "error in check_input decorator of function 'f': empty frame")).
Proof.
  apply (check_input_default_path_validation_error
           Demo.frame_schema VNone VNone VNone VNone Demo.f
           Demo.empty_df [VInt 1] ∅ (Exn SchemaError "empty frame")).
  reflexivity.
Defined.

(** X6.  When [schema.validate] rejects the selected part of the output,
    [check_output] raises instead of returning the output: a [SchemaError]
    is raised again as a [SchemaError] whose message is
    [error in check_output decorator of function '<name>': ] followed by the
    original message; an exception of any other class is raised as it is. *)
Theorem check_output_validation_error
    (s : schema) (g : getter) (h t sa r : pyval) (fn : pyfn)
    (args : list pyval) (kwargs : gmap string pyval)
    (out obj : pyval) (e : exn) :
  fn_call fn args kwargs = inr out ->
  outcome (select_output g out) = inr obj ->
  validate s obj h t sa r = inl e ->
  check_output s g h t sa r fn args kwargs =
    ((transformer_warnings s fn ++
      [ECall args kwargs; EValidate obj h t sa r])%list,
     inl (if decide (kind e = SchemaError)
          then Exn SchemaError
                 (("error in check_output decorator of function '" +:+
                   fn_name fn +:+ "': ") +:+ message e)
          else e)).
Proof.
  intros Hf Hs Hv. rewrite <- check_output_message_prefix.
  rewrite (check_output_validate_raises s g h t sa r fn args kwargs out obj e
             Hf Hs Hv).
  by rewrite <- app_assoc.
Qed.

Lemma check_output_validation_error_witness :
  check_output Demo.plain_schema (GInt 0) VNone VNone VNone VNone Demo.f
    [VInt 1; Demo.df] ∅ =
    ([ECall [VInt 1; Demo.df] ∅; EValidate (VInt 1) VNone VNone VNone VNone],
     inl (Exn SchemaError
            "error in check_output decorator of function 'f': not a frame")).
Proof.
  apply (check_output_validation_error
           Demo.plain_schema (GInt 0) VNone VNone VNone VNone Demo.f
           [VInt 1; Demo.df] ∅ (VTuple [VInt 1; Demo.df]) (VInt 1)
           (Exn SchemaError "not a frame"));
    reflexivity.
Defined.

(** X7.  The [try] of the integer path of [check_input] spans the call of
    [schema.validate]: an [IndexError] raised by [schema.validate] on an
    argument that does exist is caught like the one of an index out of
    range, although the index is in range.  The call then raises the
    [SchemaError] about the index supplied to the check, which quotes that
    [IndexError]; for a bound method without named parameters it raises the
    [IndexError] with which [_get_fn_argnames] fails while that message is
    built.  In both cases the wrapped function is not called. *)
Theorem check_input_int_validate_IndexError_is_reported_as_index
    (s : schema) (i : Z) (h t sa r : pyval) (fn : pyfn)
    (args : list pyval) (kwargs : gmap string pyval)
    (j : nat) (x : pyval) (e : exn) :
  norm_index args i = Some j -> args !! j = Some x ->
  validate s x VNone VNone VNone VNone = inl e ->
  kind e = IndexError ->
  check_input s (GInt i) h t sa r fn args kwargs =
    ([EValidate x VNone VNone VNone VNone],
     match _get_fn_argnames fn with
     | inr names =>
         inl (Exn SchemaError
                (index_error_message fn (GInt i) (length names) e))
     | inl e' => inl e'
     end)
  /\ (fn_ismethod fn = false \/ fn_argspec_args fn <> [] ->
      exists names, _get_fn_argnames fn = inr names)
  /\ (fn_ismethod fn = true -> fn_argspec_args fn = [] ->
      _get_fn_argnames fn = inl (Exn IndexError "list index out of range")).
Proof.
  intros Hi Hx Hv Hk. repeat apply conj.
  - unfold_wrappers. rewrite (list_getitem_Some _ _ _ _ Hi Hx).
    eff_simpl. rewrite Hv. rewrite decide_True by done.
    by destruct (_get_fn_argnames fn).
  - intros Hfn. unfold _get_fn_argnames.
    destruct (fn_ismethod fn); [|by eexists].
    destruct (fn_argspec_args fn) as [|n rest]; [by destruct Hfn|].
    simpl. case_decide; by eexists.
  - intros Hm Ha. unfold _get_fn_argnames. by rewrite Hm, Ha.
Qed.

Lemma check_input_int_validate_IndexError_is_reported_as_index_witness :
  check_input Demo.indexing_schema (GInt 1) VNone VNone VNone VNone Demo.f
    [VInt 1; Demo.df] ∅ =
    ([EValidate Demo.df VNone VNone VNone VNone],
     inl (Exn SchemaError
            (index_error_message Demo.f (GInt 1) 2
               (Exn IndexError "positional indexers are out-of-bounds")))).
Proof.
  apply (check_input_int_validate_IndexError_is_reported_as_index
           Demo.indexing_schema 1 VNone VNone VNone VNone Demo.f
           [VInt 1; Demo.df] ∅ 1 Demo.df
           (Exn IndexError "positional indexers are out-of-bounds"));
    reflexivity.
Defined.

(** X8.  The integer selector of [check_input] follows Python's indexing of
    the positional arguments: [0 <= i < len(args)] selects [args[i]], a
    negative [i] down to [-len(args)] selects [args[len(args) + i]], and any
    other [i] validates nothing and calls nothing.  In that last case the
    call raises the [SchemaError] about the index, which quotes the
    [IndexError] of the subscription ([list index out of range], or
    [cannot fit 'int' into an index-sized integer] for an index outside the
    64-bit range); for a bound method without named parameters it raises the
    [IndexError] with which [_get_fn_argnames] fails while that message is
    built. *)
Theorem check_input_int_index_range
    (s : schema) (i : Z) (h t sa r : pyval) (fn : pyfn)
    (args : list pyval) (kwargs : gmap string pyval) :
  (0 <= i < Z.of_nat (length args) ->
     exists x rest,
       args !! Z.to_nat i = Some x /\
       trace (check_input s (GInt i) h t sa r fn args kwargs) =
         EValidate x VNone VNone VNone VNone :: rest)
  /\ (- Z.of_nat (length args) <= i < 0 ->
     exists x rest,
       args !! Z.to_nat (Z.of_nat (length args) + i) = Some x /\
       trace (check_input s (GInt i) h t sa r fn args kwargs) =
         EValidate x VNone VNone VNone VNone :: rest)
  /\ (i < - Z.of_nat (length args) \/ Z.of_nat (length args) <= i ->
     check_input s (GInt i) h t sa r fn args kwargs =
       ([], match _get_fn_argnames fn with
            | inr names =>
                inl (Exn SchemaError
                       (index_error_message fn (GInt i) (length names)
                          (Exn IndexError
                             (if decide (- 2 ^ 63 <= i < 2 ^ 63)
                              then "list index out of range"
                              else "cannot fit 'int' into an index-sized integer"))))
            | inl e => inl e
            end))
  /\ (fn_ismethod fn = false \/ fn_argspec_args fn <> [] ->
      exists names, _get_fn_argnames fn = inr names)
  /\ (fn_ismethod fn = true -> fn_argspec_args fn = [] ->
      _get_fn_argnames fn = inl (Exn IndexError "list index out of range")).
Proof.
  repeat apply conj.
  - intros Hi. pose proof (norm_index_nonneg args i Hi) as Hj.
    destruct (args !! Z.to_nat i) as [x|] eqn:Hx.
    + destruct (check_input_int_validates s h t sa r fn args kwargs i _ x Hj Hx)
        as [rest Hrest].
      by exists x, rest.
    + apply lookup_ge_None in Hx. lia.
  - intros Hi. pose proof (norm_index_neg args i Hi) as Hj.
    replace (i + Z.of_nat (length args)) with (Z.of_nat (length args) + i)
      in Hj by lia.
    destruct (args !! Z.to_nat (Z.of_nat (length args) + i)) as [x|] eqn:Hx.
    + destruct (check_input_int_validates s h t sa r fn args kwargs i _ x Hj Hx)
        as [rest Hrest].
      by exists x, rest.
    + apply lookup_ge_None in Hx. lia.
  - intros Hi.
    rewrite (check_input_index_out_of_range_run s (GInt i) i h t sa r fn args
               kwargs (or_introl eq_refl) (norm_index_out args i Hi)).
    unfold index_error_text. by case_decide.
  - intros Hfn. unfold _get_fn_argnames.
    destruct (fn_ismethod fn); [|by eexists].
    destruct (fn_argspec_args fn) as [|n rest]; [by destruct Hfn|].
    simpl. case_decide; by eexists.
  - intros Hm Ha. unfold _get_fn_argnames. by rewrite Hm, Ha.
Qed.

Lemma check_input_int_index_range_witness :
  exists x rest,
    [VInt 1; Demo.df] !! Z.to_nat (Z.of_nat 2 + -1) = Some x /\
    trace (check_input Demo.frame_schema (GInt (-1)) VNone VNone VNone VNone
             Demo.f [VInt 1; Demo.df] ∅) =
      EValidate x VNone VNone VNone VNone :: rest.
Proof.
  pose proof (check_input_int_index_range
                Demo.frame_schema (-1) VNone VNone VNone VNone Demo.f
                [VInt 1; Demo.df] ∅) as (_ & Hneg & _).
  apply Hneg. simpl. lia.
Defined.

(** X9.  When a string selector is resolved through the declared parameter
    names, the wrapped function is called with the positional arguments that
    those names bind, the selected one replaced by what [schema.validate]
    returned, and with the keyword arguments as given.  Positional arguments
    beyond the declared names are not passed on. *)
Theorem check_input_named_positional_call
    (s : schema) (name : string) (h t sa r : pyval) (fn : pyfn)
    (args : list pyval) (kwargs : gmap string pyval)
    (names : list string) (j : nat) (x v : pyval) :
  kwargs !! name = None ->
  _get_fn_argnames fn = inr names ->
  NoDup names ->
  names !! j = Some name ->
  args !! j = Some x ->
  validate s x VNone VNone VNone VNone = inr v ->
  check_input s (GStr name) h t sa r fn args kwargs =
    ([EValidate x VNone VNone VNone VNone;
      ECall (<[j := v]> (take (length names) args)) kwargs],
     fn_call fn (<[j := v]> (take (length names) args)) kwargs)
  /\ length (<[j := v]> (take (length names) args)) =
       Nat.min (length names) (length args).
Proof.
  intros Hk Hn Hnd Hj Hx Hv.
  assert (NoDup (zip names args).*1) as Hndz by by apply NoDup_fst_zip.
  assert (zip names args !! j = Some (name, x)) as Hz.
  { apply lookup_zip_with_Some. by exists name, x. }
  assert (odict_lookup (odict_of_pairs (zip names args)) name = Some x) as Hl.
  { apply odict_of_pairs_bound; [done|]. apply list_elem_of_lookup. by exists j. }
  split.
  - rewrite (check_input_named_positional_ok s h t sa r fn args kwargs name
               names x v Hk Hn Hl Hv).
    rewrite (odict_of_pairs_NoDup _ Hndz).
    rewrite (odict_setitem_values _ j name x v Hndz Hz).
    by rewrite snd_zip_take.
  - by rewrite length_insert, length_take.
Qed.

Lemma check_input_named_positional_call_witness :
  check_input Demo.frame_schema (GStr "df") VNone VNone VNone VNone Demo.f
    [VInt 1; Demo.df; VInt 3] ∅ =
    ([EValidate Demo.df VNone VNone VNone VNone; ECall [VInt 1; Demo.df'] ∅],
     inr (VTuple [VInt 1; Demo.df'])).
Proof.
  apply (check_input_named_positional_call
           Demo.frame_schema "df" VNone VNone VNone VNone Demo.f
           [VInt 1; Demo.df; VInt 3] ∅ ["x"; "df"] 1 Demo.df Demo.df');
    try reflexivity.
  apply (bool_decide_unpack _). reflexivity.
Defined.

(** X10.  When the name of a string selector is a keyword argument,
    [check_input] validates that keyword argument and calls the wrapped
    function with the positional arguments untouched and with the keyword
    arguments in which only that name is rebound, to what [schema.validate]
    returned. *)
Theorem check_input_keyword_call
    (s : schema) (name : string) (h t sa r : pyval) (fn : pyfn)
    (args : list pyval) (kwargs : gmap string pyval) (x v : pyval) :
  kwargs !! name = Some x ->
  validate s x VNone VNone VNone VNone = inr v ->
  check_input s (GStr name) h t sa r fn args kwargs =
    ([EValidate x VNone VNone VNone VNone; ECall args (<[name := v]> kwargs)],
     fn_call fn args (<[name := v]> kwargs))
  /\ <[name := v]> kwargs !! name = Some v
  /\ (forall other, other <> name ->
        <[name := v]> kwargs !! other = kwargs !! other)
  /\ dom (<[name := v]> kwargs) = dom kwargs.
Proof.
  intros Hk Hv. repeat apply conj.
  - by apply check_input_kwarg_ok.
  - apply lookup_insert_eq.
  - intros other Hne. by apply lookup_insert_ne.
  - rewrite dom_insert_L. apply elem_of_dom_2 in Hk.
    apply set_eq. intros k. rewrite elem_of_union, elem_of_singleton.
    split; [intros [->|Hin]; done | by right].
Qed.

Lemma check_input_keyword_call_witness :
  check_input Demo.frame_schema (GStr "df") VNone VNone VNone VNone Demo.f
    [VInt 1] {[ "df" := Demo.df ]} =
    ([EValidate Demo.df VNone VNone VNone VNone;
      ECall [VInt 1] (<["df" := Demo.df']> {[ "df" := Demo.df ]})],
     inr (VTuple [VInt 1])).
Proof.
  apply (check_input_keyword_call
           Demo.frame_schema "df" VNone VNone VNone VNone Demo.f
           [VInt 1] {[ "df" := Demo.df ]} Demo.df Demo.df');
    reflexivity.
Defined.

(** X11.  On the default path [check_input] validates the first positional
    argument with the decorator's [head], [tail], [sample] and
    [random_state], and calls the wrapped function with that argument
    replaced by what [schema.validate] returned, the other positional
    arguments and the keyword arguments being as given. *)
Theorem check_input_default_path_call
    (s : schema) (h t sa r : pyval) (fn : pyfn)
    (x v : pyval) (rest : list pyval) (kwargs : gmap string pyval) :
  validate s x h t sa r = inr v ->
  check_input s GNone h t sa r fn (x :: rest) kwargs =
    ([EValidate x h t sa r; ECall (v :: rest) kwargs],
     fn_call fn (v :: rest) kwargs).
Proof. intros Hv. by apply (check_input_none_ok s h t sa r fn _ kwargs x v rest). Qed.

Lemma check_input_default_path_call_witness :
  check_input Demo.frame_schema GNone (VInt 5) VNone VNone VNone Demo.f
    [Demo.df; VInt 1] ∅ =
    ([EValidate Demo.df (VInt 5) VNone VNone VNone; ECall [Demo.df'; VInt 1] ∅],
     inr (VTuple [Demo.df'; VInt 1])).
Proof.
  apply (check_input_default_path_call
           Demo.frame_schema (VInt 5) VNone VNone VNone Demo.f
           Demo.df Demo.df' [VInt 1] ∅).
  reflexivity.
Defined.

(** X12.  For a bound method that declares no named parameter,
    [_get_fn_argnames] fails on [arg_spec_args[0]].  [check_input] then
    raises an [IndexError], with nothing validated and nothing called, both
    for a string selector that is not a keyword argument and for an integer
    selector that is out of range (whose [SchemaError] is being built when
    the failure occurs). *)
Theorem check_input_method_without_named_parameters
    (s : schema) (h t sa r : pyval) (fn : pyfn)
    (args : list pyval) (kwargs : gmap string pyval) :
  fn_ismethod fn = true ->
  fn_argspec_args fn = [] ->
  (forall name,
      kwargs !! name = None ->
      check_input s (GStr name) h t sa r fn args kwargs =
        ([], inl (Exn IndexError "list index out of range")))
  /\ (forall i,
      norm_index args i = None ->
      check_input s (GInt i) h t sa r fn args kwargs =
        ([], inl (Exn IndexError "list index out of range"))).
Proof.
  intros Hm Ha.
  assert (_get_fn_argnames fn = inl (Exn IndexError "list index out of range"))
    as Hn by (unfold _get_fn_argnames; by rewrite Hm, Ha).
  split.
  - intros name Hk. unfold_wrappers. rewrite Hk, Hn. by eff_simpl.
  - intros i Hi. unfold_wrappers. unfold list_getitem.
    rewrite (seq_getitem_None _ _ _ Hi). eff_simpl. by rewrite Hn.
Qed.

Lemma check_input_method_without_named_parameters_witness :
  check_input Demo.frame_schema (GStr "df") VNone VNone VNone VNone
    Demo.collect [Demo.df] ∅ =
    ([], inl (Exn IndexError "list index out of range")).
Proof.
  pose proof (check_input_method_without_named_parameters
                Demo.frame_schema VNone VNone VNone VNone Demo.collect
                [Demo.df] ∅ eq_refl eq_refl) as (Hname & _).
  apply Hname. reflexivity.
Defined.

(** X13.  [_get_fn_argnames] fails exactly for a method without declared
    parameter names.  Otherwise it returns the declared names, from which it
    drops the first one exactly when the function is a method and that name
    is [self]: the receiver of a method that is named otherwise stays in the
    list. *)
Theorem get_fn_argnames_cases (fn : pyfn) :
  ((exists e, _get_fn_argnames fn = inl e) <->
   fn_ismethod fn = true /\ fn_argspec_args fn = [])
  /\ (forall names,
        _get_fn_argnames fn = inr names ->
        (fn_ismethod fn = true /\ fn_argspec_args fn = "self" :: names) \/
        (names = fn_argspec_args fn /\
         (fn_ismethod fn = false \/
          exists n rest, fn_argspec_args fn = n :: rest /\ n <> "self")))
  /\ (forall n rest,
        fn_ismethod fn = true -> fn_argspec_args fn = n :: rest ->
        n <> "self" -> _get_fn_argnames fn = inr (n :: rest)).
Proof.
  unfold _get_fn_argnames.
  destruct (fn_ismethod fn) eqn:Hm, (fn_argspec_args fn) as [|n rest] eqn:Ha;
    simpl.
  - split; [|split].
    + split; [done|]. intros _. by eexists.
    + intros names Hn. discriminate Hn.
    + intros n rest _ Hnil. discriminate Hnil.
  - split; [|split].
    + split; [|by intros [_ ?]]. intros [e He]. by case_decide.
    + intros names Hn. case_decide; simplify_eq.
      * by left.
      * right. split; [done|]. right. by exists n, rest.
    + intros n' rest' _ Heq Hne. simplify_eq. by rewrite decide_False.
  - split; [|split].
    + split; [by intros [e ?]|by intros [? _]].
    + intros names Hn. simplify_eq. right. split; [done|]. by left.
    + intros n rest Hf. discriminate Hf.
  - split; [|split].
    + split; [by intros [e ?]|by intros [? _]].
    + intros names Hn. simplify_eq. right. split; [done|]. by left.
    + intros n' rest' Hf. discriminate Hf.
Qed.

(** X14.  On the selector paths of [check_input] an exception of
    [schema.validate] ends the call before the wrapped function runs and is
    raised as it is, with its class and message unchanged: every exception
    on the string path, and every exception but an [IndexError] on the
    integer path. *)
Theorem check_input_selector_paths_pass_errors_through
    (s : schema) (h t sa r : pyval) (fn : pyfn)
    (args : list pyval) (kwargs : gmap string pyval) (x : pyval) (e : exn) :
  validate s x VNone VNone VNone VNone = inl e ->
  (forall i j,
      norm_index args i = Some j -> args !! j = Some x ->
      kind e <> IndexError ->
      check_input s (GInt i) h t sa r fn args kwargs =
        ([EValidate x VNone VNone VNone VNone], inl e))
  /\ (forall name,
      kwargs !! name = Some x ->
      check_input s (GStr name) h t sa r fn args kwargs =
        ([EValidate x VNone VNone VNone VNone], inl e))
  /\ (forall name names j,
      kwargs !! name = None -> _get_fn_argnames fn = inr names ->
      NoDup names -> names !! j = Some name -> args !! j = Some x ->
      check_input s (GStr name) h t sa r fn args kwargs =
        ([EValidate x VNone VNone VNone VNone], inl e)).
Proof.
  intros Hv. repeat apply conj.
  - intros i j Hi Hx Hk. by apply (check_input_int_validate_raises _ _ _ _ _ _ _ _ _ j).
  - intros name Hk. by apply check_input_kwarg_validate_raises.
  - intros name names j Hk Hn Hnd Hj Hx.
    apply (check_input_named_positional_validate_raises _ _ _ _ _ _ _ _ _ names);
      try done.
    apply odict_of_pairs_bound; [by apply NoDup_fst_zip|].
    by eapply elem_of_zip_lookup.
Qed.

Lemma check_input_selector_paths_pass_errors_through_witness :
  check_input Demo.frame_schema (GStr "df") VNone VNone VNone VNone Demo.f
    [VInt 1] {[ "df" := Demo.empty_df ]} =
    ([EValidate Demo.empty_df VNone VNone VNone VNone],
     inl (Exn SchemaError "empty frame")).
Proof.
  pose proof (check_input_selector_paths_pass_errors_through
                Demo.frame_schema VNone VNone VNone VNone Demo.f
                [VInt 1] {[ "df" := Demo.empty_df ]} Demo.empty_df
                (Exn SchemaError "empty frame") eq_refl) as (_ & Hkw & _).
  apply Hkw. reflexivity.
Defined.
